(** * LMStudioBenchmark: a shallow embedding of [lmstudio_benchmark/main.py]

    The benchmark object talks to three outside parties: the HTTP server
    (through [requests]), the wall clock ([time.time]) and the process
    table ([psutil]).  They are modelled by an environment of oracles that
    answer from the history of the interaction so far; the program threads
    that history (a list of events) and the object's fields explicitly.

    Modelling choices:
    - Python floats are rationals ([Q]): rounding and infinities are not
      modelled; an integer too large for a float raises [OverflowError]
      where the code converts it;
    - a Python [str] is a [string] whose elements stand for its characters;
    - a call either returns a value or raises ([Py.result]); only
      exceptions deriving from [Exception] are modelled;
    - reading the clock and the resident memory of the own process always
      succeeds, and the size read is a machine word, far below the
      integers that have no float;
    - the progress bar of [tqdm] is display only and leaves no event. *)

From Stdlib Require Import ZArith QArith List String Ascii Bool Lia.
From Stdlib Require Import DecimalString.
Import ListNotations.

Local Open Scope string_scope.
Local Open Scope Z_scope.
Local Open Scope list_scope.

(** ** Python values *)

Module Py.

(** The values the program handles: what [json] decodes to, and what the
    measurement dictionaries hold.  A [PDict] lists its items in insertion
    order; its keys are pairwise distinct. *)
Unset Elimination Schemes.
Inductive value : Type :=
| PNone
| PBool (b : bool)
| PInt (z : Z)
| PFloat (q : Q)
| PStr (s : string)
| PList (l : list value)
| PDict (d : list (string * value)).
Set Elimination Schemes.

(** The exceptions that can reach the handlers of the program. *)
Inductive exn : Type :=
| RequestException (detail : string)
| HTTPError (status : Z)
| JSONDecodeError
| KeyError (key : value)
| IndexError
| TypeError
| AttributeError
| ZeroDivisionError
| OverflowError
| OtherError (name : string).

(** [isinstance(e, requests.RequestException)]; [HTTPError] and the
    [JSONDecodeError] of [requests] derive from it. *)
Definition is_RequestException (e : exn) : bool :=
  match e with
  | RequestException _ | HTTPError _ | JSONDecodeError => true
  | _ => false
  end.

(** [isinstance(e, ArithmeticError)]. *)
Definition is_ArithmeticError (e : exn) : bool :=
  match e with
  | ZeroDivisionError | OverflowError => true
  | _ => false
  end.

(** A computation inside a [try] block: a value, or a raised exception. *)
Definition result (A : Type) : Type := (exn + A)%type.

Definition ret {A} (a : A) : result A := inr a.
Definition raise {A} (e : exn) : result A := inl e.
Definition bind {A B} (m : result A) (k : A -> result B) : result B :=
  match m with
  | inl e => inl e
  | inr a => k a
  end.

Fixpoint dict_lookup (d : list (string * value)) (k : string) : option value :=
  match d with
  | [] => None
  | (k', v) :: d' => if String.eqb k' k then Some v else dict_lookup d' k
  end.

(** [v[k]] for a string key. *)
Definition getitem_str (v : value) (k : string) : result value :=
  match v with
  | PDict d =>
      match dict_lookup d k with
      | Some x => ret x
      | None => raise (KeyError (PStr k))
      end
  | _ => raise TypeError
  end.

(** [v[i]] for a non-negative integer index. *)
Definition getitem_int (v : value) (i : nat) : result value :=
  match v with
  | PList l =>
      match nth_error l i with
      | Some x => ret x
      | None => raise IndexError
      end
  | PStr s =>
      match String.get i s with
      | Some c => ret (PStr (String c EmptyString))
      | None => raise IndexError
      end
  | PDict _ => raise (KeyError (PInt (Z.of_nat i)))
  | _ => raise TypeError
  end.

(** [v.get(k, default)]: only a dict has the method. *)
Definition get_method (v : value) (k : string) (default : value) : result value :=
  match v with
  | PDict d =>
      match dict_lookup d k with
      | Some x => ret x
      | None => ret default
      end
  | _ => raise AttributeError
  end.

(** [len(v)]. *)
Definition len (v : value) : result Z :=
  match v with
  | PStr s => ret (Z.of_nat (String.length s))
  | PList l => ret (Z.of_nat (List.length l))
  | PDict d => ret (Z.of_nat (List.length d))
  | _ => raise TypeError
  end.

(** The number a value stands for in arithmetic, when it is one. *)
Definition as_number (v : value) : option Q :=
  match v with
  | PBool b => Some (if b then 1%Q else 0%Q)
  | PInt z => Some (inject_Z z)
  | PFloat q => Some q
  | _ => None
  end.

Definition Qis_zero (q : Q) : bool := Qeq_bool q 0.

(** The least magnitude of an integer that has no float: it rounds to
    2^1024, past the largest double 2^1024 - 2^971. *)
Definition float_limit : Z := 2 ^ 1024 - 2 ^ 970.

(** Whether converting a number to a float raises [OverflowError]: only an
    [int] can be too large. *)
Definition int_overflows (v : value) : bool :=
  match v with
  | PInt z => float_limit <=? Z.abs z
  | _ => false
  end.

(** [v / d] with a float divisor [d]: the left operand is converted to a
    float first, then the divisor is tested. *)
Definition truediv (v : value) (d : Q) : result Q :=
  match as_number v with
  | None => raise TypeError
  | Some n =>
      if int_overflows v then raise OverflowError
      else if Qis_zero d then raise ZeroDivisionError
      else ret (n / d)%Q
  end.

(** Truth value of an object, as [if] tests it. *)
Definition truthy (v : value) : bool :=
  match v with
  | PNone => false
  | PBool b => b
  | PInt z => negb (z =? 0)
  | PFloat q => negb (Qis_zero q)
  | PStr s => negb (String.eqb s "")
  | PList l => match l with [] => false | _ => true end
  | PDict d => match d with [] => false | _ => true end
  end.

(** [str(z)] for an integer. *)
Definition str_of_int (z : Z) : string := NilZero.string_of_int (Z.to_int z).

End Py.

Import Py.

Notation "x <- m ;; k" := (Py.bind m (fun x => k))
  (at level 61, m at next level, right associativity).

(** ** The outside world *)

(** What [requests] hands back for one request. [body] is the decoded JSON
    document, [None] when the body is not valid JSON. *)
Record response : Type := mkResponse {
  status_code : Z;
  body : option value
}.

Inductive event : Type :=
| EvTime (t : Q)                         (* time.time() returned t *)
| EvRss (bytes : Z)                      (* psutil reported an rss of bytes *)
| EvGet (url : string) (reply : result response)
| EvPost (url : string) (json : value) (reply : result response)
| EvPrint (line : string).

Definition trace : Type := list event.

(** Each oracle answers from the history so far, so that a server or a
    clock may behave differently from one call to the next.  [exn_str] is
    the text [str(e)] of an exception. *)
Record env : Type := mkEnv {
  requests_get : trace -> string -> result response;
  requests_post : trace -> string -> value -> result response;
  time_time : trace -> Q;
  memory_rss : trace -> Z;
  exn_str : exn -> string
}.

(** [response.raise_for_status()]: client and server error codes raise. *)
Definition raise_for_status (r : response) : result unit :=
  if (400 <=? status_code r) && (status_code r <? 600)
  then raise (HTTPError (status_code r))
  else ret tt.

(** [response.json()]. *)
Definition response_json (r : response) : result value :=
  match body r with
  | Some v => ret v
  | None => raise JSONDecodeError
  end.

(** [psutil.Process().memory_info().rss / 1024 / 1024]. *)
Definition rss_mb (bytes : Z) : Q := (inject_Z bytes / 1024 / 1024)%Q.

(** ** class LMStudioBenchmark *)

Record LMStudioBenchmark : Type := mkBenchmark {
  base_url : string;
  results : list value
}.

(** [__init__(self, host="localhost", port=1234)]. *)
Definition init (host : string) (port : Z) : LMStudioBenchmark :=
  {| base_url := ("http://" ++ host ++ ":" ++ str_of_int port ++ "/v1")%string;
     results := [] |}.

(** [self.results.append(r)]. *)
Definition results_append (self : LMStudioBenchmark) (r : value)
  : LMStudioBenchmark :=
  {| base_url := base_url self; results := results self ++ [r] |}.

(** [check_connection(self)]: only a [RequestException] is handled. *)
Definition check_connection (E : env) (self : LMStudioBenchmark) (tr : trace)
  : result bool * trace :=
  let url := (base_url self ++ "/models")%string in
  let reply := requests_get E tr url in
  let tr1 := tr ++ [EvGet url reply] in
  match reply with
  | inr response => (ret (status_code response =? 200), tr1)
  | inl e => if is_RequestException e then (ret false, tr1) else (raise e, tr1)
  end.

(** The request body built at the head of [measure_inference]. *)
Definition payload (prompt : string) (max_tokens : Z) : value :=
  PDict [("messages", PList [PDict [("role", PStr "user");
                                    ("content", PStr prompt)]]);
         ("max_tokens", PInt max_tokens);
         ("temperature", PFloat (7 # 10));
         ("stream", PBool false)].

(** The two reads of the decoded document: the generated text and the
    token count, the latter with its default when the server leaves the
    usage block, or the count in it, out. *)
Definition read_fields (response : response) : result (value * value) :=
  result <- response_json response ;;
  choices <- getitem_str result "choices" ;;
  choice <- getitem_int choices 0 ;;
  message <- getitem_str choice "message" ;;
  generated_text <- getitem_str message "content" ;;
  usage <- get_method result "usage" (PDict []) ;;
  total_tokens <- get_method usage "total_tokens" (PInt 0) ;;
  ret (generated_text, total_tokens).

(** The tail of the [try] block, from [result = response.json()] on: the
    fields are read and the record is built, its entries evaluated in the
    order they are written. *)
Definition success_record (prompt : string) (response : response)
    (start_time end_time start_memory end_memory : Q) : result value :=
  fields <- read_fields response ;;
  response_length <- len (fst fields) ;;
  tokens_per_second <- truediv (snd fields) (end_time - start_time)%Q ;;
  ret (PDict [("prompt_length", PInt (Z.of_nat (String.length prompt)));
              ("response_length", PInt response_length);
              ("total_tokens", snd fields);
              ("latency", PFloat (end_time - start_time)%Q);
              ("tokens_per_second", PFloat tokens_per_second);
              ("memory_usage_mb", PFloat (end_memory - start_memory)%Q);
              ("success", PBool true)]).

(** The record of the [except Exception as e] branch. *)
Definition failure_record (E : env) (prompt : string) (e : exn) : value :=
  PDict [("prompt_length", PInt (Z.of_nat (String.length prompt)));
         ("error", PStr (exn_str E e));
         ("success", PBool false)].

(** The [try] block of [measure_inference], started at history [tr2] with
    the two samples taken before it. *)
Definition try_block (E : env) (tr2 : trace) (url prompt : string)
    (json : value) (start_time start_memory : Q) : result value * trace :=
  let reply := requests_post E tr2 url json in
  let tr3 := tr2 ++ [EvPost url json reply] in
  match reply with
  | inl e => (raise e, tr3)
  | inr response =>
      match raise_for_status response with
      | inl e => (raise e, tr3)
      | inr _ =>
          let end_time := time_time E tr3 in
          let tr4 := tr3 ++ [EvTime end_time] in
          let end_rss := memory_rss E tr4 in
          let tr5 := tr4 ++ [EvRss end_rss] in
          (success_record prompt response start_time end_time
             start_memory (rss_mb end_rss), tr5)
      end
  end.

(** [measure_inference(self, prompt, max_tokens=100)]. *)
Definition measure_inference (E : env) (self : LMStudioBenchmark)
    (tr : trace) (prompt : string) (max_tokens : Z) : result value * trace :=
  let url := (base_url self ++ "/chat/completions")%string in
  let json := payload prompt max_tokens in
  let start_time := time_time E tr in
  let tr1 := tr ++ [EvTime start_time] in
  let start_rss := memory_rss E tr1 in
  let tr2 := tr1 ++ [EvRss start_rss] in
  match try_block E tr2 url prompt json start_time (rss_mb start_rss) with
  | (inr record, tr') => (ret record, tr')
  | (inl e, tr') => (ret (failure_record E prompt e), tr')
  end.

Definition default_max_tokens : Z := 100.

(** The inner loop of [run_benchmark]: [n] iterations on one prompt. *)
Fixpoint iterate (E : env) (prompt : string) (n : nat)
    (self : LMStudioBenchmark) (tr : trace)
  : result unit * LMStudioBenchmark * trace :=
  match n with
  | O => (ret tt, self, tr)
  | S n' =>
      match measure_inference E self tr prompt default_max_tokens with
      | (inl e, tr') => (raise e, self, tr')
      | (inr result, tr') =>
          match getitem_str result "success" with
          | inl e => (raise e, self, tr')
          | inr success =>
              let self' :=
                if truthy success then results_append self result else self in
              iterate E prompt n' self' tr'
          end
      end
  end.

(** The outer loop: [for prompt in prompts]. *)
Fixpoint for_prompts (E : env) (prompts : list string) (iterations : Z)
    (self : LMStudioBenchmark) (tr : trace)
  : result unit * LMStudioBenchmark * trace :=
  match prompts with
  | [] => (ret tt, self, tr)
  | prompt :: rest =>
      match iterate E prompt (Z.to_nat iterations) self tr with
      | (inl e, self', tr') => (raise e, self', tr')
      | (inr _, self', tr') => for_prompts E rest iterations self' tr'
      end
  end.

Definition msg_cannot_connect : string :=
  "Error: Cannot connect to LM Studio. Please ensure it's running.".

Definition msg_running (prompts : list string) (iterations : Z) : string :=
  ("Running benchmark with " ++ str_of_int (Z.of_nat (List.length prompts))
   ++ " prompts, " ++ str_of_int iterations ++ " iterations each...")%string.

(** [run_benchmark(self, prompts, iterations=3)].  Both ways out of the
    function end without a value, which is [None] to the caller.  The
    progress bar drawn by [tqdm] is not part of the history. *)
Definition run_benchmark (E : env) (self : LMStudioBenchmark) (tr : trace)
    (prompts : list string) (iterations : Z)
  : result value * LMStudioBenchmark * trace :=
  match check_connection E self tr with
  | (inl e, tr1) => (raise e, self, tr1)
  | (inr false, tr1) => (ret PNone, self, tr1 ++ [EvPrint msg_cannot_connect])
  | (inr true, tr1) =>
      let tr2 := tr1 ++ [EvPrint (msg_running prompts iterations)] in
      match for_prompts E prompts iterations self tr2 with
      | (inl e, self', tr') => (raise e, self', tr')
      | (inr _, self', tr') => (ret PNone, self', tr')
      end
  end.

(** ** Observations on a run *)

(** The requests of a history that went to the server by POST, oldest
    first, each with its URL and body. *)
Fixpoint posted (tr : trace) : list (string * value) :=
  match tr with
  | [] => []
  | EvPost url json _ :: tr' => (url, json) :: posted tr'
  | _ :: tr' => posted tr'
  end.

(** [result['success']] as the runner tests it. *)
Definition succeeded (m : value) : bool :=
  match getitem_str m "success" with
  | inr s => truthy s
  | inl _ => false
  end.

(** The trial plan: every prompt in order, each repeated [n] times. *)
Definition trial_plan (prompts : list string) (n : nat) : list string :=
  flat_map (fun prompt => repeat prompt n) prompts.

(** The measurements the collector returns when called on the prompts of
    [plan] one after the other from history [tr], and the history at the
    end. *)
Fixpoint trial_run (E : env) (self : LMStudioBenchmark) (tr : trace)
    (plan : list string) : list value * trace :=
  match plan with
  | [] => ([], tr)
  | prompt :: rest =>
      match measure_inference E self tr prompt default_max_tokens with
      | (inr m, tr') =>
          let '(ms, tr'') := trial_run E self tr' rest in (m :: ms, tr'')
      | (inl _, tr') => ([], tr')
      end
  end.

(** The measurements of the trials of one run, failed ones included, in
    the order the trials are made; [tr1] is the history after the probe. *)
Definition planned_trials (E : env) (self : LMStudioBenchmark) (tr1 : trace)
    (prompts : list string) (iterations : Z) : list value :=
  fst (trial_run E self (tr1 ++ [EvPrint (msg_running prompts iterations)])
         (trial_plan prompts (Z.to_nat iterations))).

(** What one call of [run_benchmark] adds to the measurement set. *)
Definition run_successes (E : env) (self : LMStudioBenchmark) (tr : trace)
    (prompts : list string) (iterations : Z) : list value :=
  match check_connection E self tr with
  | (inr true, tr1) =>
      filter succeeded (planned_trials E self tr1 prompts iterations)
  | _ => []
  end.

(** The request a trial of the runner sends for a prompt. *)
Definition trial_request (self : LMStudioBenchmark) (prompt : string)
  : string * value :=
  ((base_url self ++ "/chat/completions")%string,
   payload prompt default_max_tokens).

(** The token count a decoded answer carries in its usage block. *)
Definition usage_total_tokens (doc : value) : option value :=
  match doc with
  | PDict d =>
      match dict_lookup d "usage" with
      | Some (PDict u) => dict_lookup u "total_tokens"
      | _ => None
      end
  | _ => None
  end.

(** The ways one inference call fails before a record can be built, with
    the exception each one raises inside the [try] block. *)
Inductive trial_failure (reply : result response) : exn -> Prop :=
| transport_failure e :
    reply = raise e -> trial_failure reply e
| http_status_failure r :
    reply = ret r -> 400 <= status_code r < 600 ->
    trial_failure reply (HTTPError (status_code r))
| parsing_failure r e :
    reply = ret r -> ~ 400 <= status_code r < 600 ->
    read_fields r = raise e -> trial_failure reply e
| unsized_text_failure r g t e :
    reply = ret r -> ~ 400 <= status_code r < 600 ->
    read_fields r = ret (g, t) -> len g = raise e -> trial_failure reply e
| token_count_failure r g t n :
    reply = ret r -> ~ 400 <= status_code r < 600 ->
    read_fields r = ret (g, t) -> len g = ret n -> as_number t = None ->
    trial_failure reply TypeError.

(** The history a call of [measure_inference] has when it sends its
    request: the start samples are taken. *)
Definition at_request (E : env) (tr : trace) : trace :=
  (tr ++ [EvTime (time_time E tr)])
  ++ [EvRss (memory_rss E (tr ++ [EvTime (time_time E tr)]))].

Definition completions_url (self : LMStudioBenchmark) : string :=
  (base_url self ++ "/chat/completions")%string.

Definition models_url (self : LMStudioBenchmark) : string :=
  (base_url self ++ "/models")%string.

(** The events a [try] block adds after the request itself: nothing when
    the request or the status check raised, the two end samples otherwise. *)
Definition end_samples (E : env) (tr3 : trace) (reply : result response)
  : trace :=
  match reply with
  | inl _ => []
  | inr r =>
      match raise_for_status r with
      | inl _ => []
      | inr _ =>
          [EvTime (time_time E tr3);
           EvRss (memory_rss E (tr3 ++ [EvTime (time_time E tr3)]))]
      end
  end.

(** ** Sample environments

    Small deterministic servers and clocks, used to run the program on
    concrete inputs. *)

Module Sample.

Definition is_post (ev : event) : bool :=
  match ev with EvPost _ _ _ => true | _ => false end.

Definition posts_so_far (tr : trace) : nat := List.length (filter is_post tr).

(** A clock that advances by one second with every completion request. *)
Definition clock (tr : trace) : Q := inject_Z (Z.of_nat (posts_so_far tr)).

Definition class_name (e : exn) : string :=
  match e with
  | RequestException d => d
  | HTTPError _ => "HTTPError"
  | JSONDecodeError => "JSONDecodeError"
  | KeyError _ => "KeyError"
  | IndexError => "IndexError"
  | TypeError => "TypeError"
  | AttributeError => "AttributeError"
  | ZeroDivisionError => "ZeroDivisionError"
  | OverflowError => "OverflowError"
  | OtherError n => n
  end.

Definition hello : value :=
  PDict [("choices", PList [PDict [("message",
                                    PDict [("content", PStr "hello")])]]);
         ("usage", PDict [("total_tokens", PInt 5)])].

Definition hello_no_usage : value :=
  PDict [("choices", PList [PDict [("message",
                                    PDict [("content", PStr "hello")])]])].

Definition ok (v : value) : result response :=
  ret {| status_code := 200; body := Some v |}.

Definition status (code : Z) : result response :=
  ret {| status_code := code; body := None |}.

(** The server of the spec's scenario: always up, always the same answer,
    one second per request. *)
Definition steady : env :=
  {| requests_get := fun _ _ => status 200;
     requests_post := fun _ _ _ => ok hello;
     time_time := clock;
     memory_rss := fun _ => 52428800;
     exn_str := class_name |}.

(** The same server seen through a clock that does not advance. *)
Definition frozen : env :=
  {| requests_get := fun _ _ => status 200;
     requests_post := fun _ _ _ => ok hello;
     time_time := fun _ => 5%Q;
     memory_rss := fun _ => 52428800;
     exn_str := class_name |}.

(** A server whose model listing answers 503. *)
Definition down : env :=
  {| requests_get := fun _ _ => status 503;
     requests_post := fun _ _ _ => ok hello;
     time_time := clock;
     memory_rss := fun _ => 52428800;
     exn_str := class_name |}.

(** A server that cannot be reached at all. *)
Definition unreachable : env :=
  {| requests_get := fun _ _ => raise (RequestException "ConnectionError");
     requests_post := fun _ _ _ => raise (RequestException "ConnectionError");
     time_time := clock;
     memory_rss := fun _ => 52428800;
     exn_str := class_name |}.

(** A server that answers 500 to every second completion request,
    starting with the first. *)
Definition flaky : env :=
  {| requests_get := fun _ _ => status 200;
     requests_post := fun tr _ _ =>
       if Nat.even (posts_so_far tr) then status 500 else ok hello;
     time_time := clock;
     memory_rss := fun _ => 52428800;
     exn_str := class_name |}.

(** A server that leaves the usage block out of its answers. *)
Definition terse : env :=
  {| requests_get := fun _ _ => status 200;
     requests_post := fun _ _ _ => ok hello_no_usage;
     time_time := clock;
     memory_rss := fun _ => 52428800;
     exn_str := class_name |}.

Definition bench : LMStudioBenchmark := init "localhost" 1234.

(** The history after a probe that was answered 200. *)
Definition probed : trace :=
  [EvGet "http://localhost:1234/v1/models" (status 200)].

(** The Measurement of the spec's scenario: the prompt "hi" on the steady
    server. *)
Definition steady_record : value :=
  PDict [("prompt_length", PInt 2); ("response_length", PInt 5);
         ("total_tokens", PInt 5); ("latency", PFloat (1 - 0));
         ("tokens_per_second", PFloat (5 / (1 - 0)));
         ("memory_usage_mb", PFloat (rss_mb 52428800 - rss_mb 52428800));
         ("success", PBool true)].

Definition steady_history : trace :=
  [EvTime 0; EvRss 52428800;
   EvPost "http://localhost:1234/v1/chat/completions" (payload "hi" 100)
     (ok hello);
   EvTime 1; EvRss 52428800].

(** What the collector returns for the prompt "hi" on the terse server,
    and the history of that call. *)
Definition terse_record : value :=
  PDict [("prompt_length", PInt 2); ("response_length", PInt 5);
         ("total_tokens", PInt 0); ("latency", PFloat (1 - 0));
         ("tokens_per_second", PFloat (0 / (1 - 0)));
         ("memory_usage_mb", PFloat (rss_mb 52428800 - rss_mb 52428800));
         ("success", PBool true)].

(** The same on the server seen through the frozen clock. *)
Definition frozen_record : value :=
  PDict [("prompt_length", PInt 2);
         ("error", PStr "ZeroDivisionError");
         ("success", PBool false)].

Definition frozen_history : trace :=
  [EvTime 5; EvRss 52428800;
   EvPost "http://localhost:1234/v1/chat/completions" (payload "hi" 100)
     (ok hello);
   EvTime 5; EvRss 52428800].

Definition terse_history : trace :=
  [EvTime 0; EvRss 52428800;
   EvPost "http://localhost:1234/v1/chat/completions" (payload "hi" 100)
     (ok hello_no_usage);
   EvTime 1; EvRss 52428800].

End Sample.


(** ** The report and the command line *)

(** What the program leaves behind: the events above, and the file that
    [generate_report] writes. *)
Inductive output : Type :=
| Io (ev : event)
| CsvWritten (path : string) (table : list value).

(** The two library services [generate_report] relies on: [fixed2 x] is
    the text of [f"{x:.2f}"], and [to_csv path table] is [None] when
    [DataFrame.to_csv] writes the file and the exception it raises
    otherwise. *)
Record report_env : Type := mkReportEnv {
  fixed2 : Q -> string;
  to_csv : string -> list value -> option exn
}.

(** [df[key]] on a table whose rows all hold a float under [key]; [None]
    on any other table, which this model does not cover. *)
Fixpoint column (rows : list value) (key : string) : option (list Q) :=
  match rows with
  | [] => Some []
  | row :: rest =>
      match getitem_str row key, column rest key with
      | inr (PFloat q), Some qs => Some (q :: qs)
      | _, _ => None
      end
  end.

(** [.mean()] of a column. *)
Definition mean (qs : list Q) : Q :=
  (fold_right Qplus 0 qs / inject_Z (Z.of_nat (List.length qs)))%Q.

Definition newline : string := String "010"%char EmptyString.

Definition msg_no_results : string := "No results to report!".

(** The lines printed after the file is written. *)
Definition summary (R : report_env) (latency tokens memory : list Q)
    (output_file : string) : list output :=
  [Io (EvPrint (newline ++ "Benchmark Summary:")%string);
   Io (EvPrint ("Average latency: " ++ fixed2 R (mean latency)
                ++ " seconds")%string);
   Io (EvPrint ("Average tokens/second: "
                ++ fixed2 R (mean tokens))%string);
   Io (EvPrint ("Average memory usage: " ++ fixed2 R (mean memory)
                ++ " MB")%string);
   Io (EvPrint (newline ++ "Detailed results saved to "
                ++ output_file)%string)].

Definition default_output_file : string := "benchmark_results.csv".

(** [generate_report(self, output_file="benchmark_results.csv")].  The
    data frame built from [self.results] is the list of records itself.
    The result is [None] where the model stops: a non-empty table with a
    summary column that is not all floats. *)
Definition generate_report (R : report_env) (self : LMStudioBenchmark)
    (output_file : string) : option (result value * list output) :=
  match results self with
  | [] => Some (ret PNone, [Io (EvPrint msg_no_results)])
  | _ :: _ =>
      let df := results self in
      match to_csv R output_file df with
      | Some e => Some (raise e, [])
      | None =>
          match column df "latency", column df "tokens_per_second",
                column df "memory_usage_mb" with
          | Some latency, Some tokens, Some memory =>
              Some (ret PNone,
                    CsvWritten output_file df
                    :: summary R latency tokens memory output_file)
          | _, _, _ => None
          end
      end
  end.

(** The namespace [parser.parse_args()] returns; the parsing itself is
    left to [argparse]. *)
Record args : Type := mkArgs {
  host : string;
  port : Z;
  iterations : Z
}.

(** The namespace of a command line without options. *)
Definition default_args : args :=
  {| host := "localhost"; port := 1234; iterations := 3 |}.

Definition test_prompts : list string :=
  ["What is machine learning?";
   "Explain the concept of neural networks and their applications in modern AI systems.";
   "Write a detailed essay about the history of artificial intelligence, its current state, and future prospects. Include specific examples and milestones."].

(** [main()], from the parsed arguments on. *)
Definition main (E : env) (R : report_env) (a : args) (tr : trace)
  : option (result value * list output) :=
  let benchmark := init (host a) (port a) in
  match run_benchmark E benchmark tr test_prompts (iterations a) with
  | (inl e, _, tr') => Some (raise e, map Io tr')
  | (inr _, benchmark', tr') =>
      match generate_report R benchmark' default_output_file with
      | Some (r, out) => Some (r, map Io tr' ++ out)
      | None => None
      end
  end.



(** A complete Measurement of a successful trial: the seven entries in the
    order of the source, with a throughput that is the token count over a
    latency other than zero. *)
Definition is_measurement (m : value) : Prop :=
  exists prompt_length response_length total q latency memory,
    as_number total = Some q /\
    ~ (latency == 0)%Q /\
    0 <= prompt_length /\ 0 <= response_length /\
    m = PDict [("prompt_length", PInt prompt_length);
               ("response_length", PInt response_length);
               ("total_tokens", total);
               ("latency", PFloat latency);
               ("tokens_per_second", PFloat (q / latency)%Q);
               ("memory_usage_mb", PFloat memory);
               ("success", PBool true)].

(** Whether a reply gets past [raise_for_status]. *)
Definition status_accepted (reply : result response) : bool :=
  match reply with
  | inl _ => false
  | inr r => negb ((400 <=? status_code r) && (status_code r <? 600))
  end.

(** The reply a call of [measure_inference] gets to its request, the
    history once the reply is in, and the two clock readings (the second
    one is taken only when the status is accepted). *)
Definition reply_of (E : env) (self : LMStudioBenchmark) (tr : trace)
    (prompt : string) (max_tokens : Z) : result response :=
  requests_post E (at_request E tr) (completions_url self)
    (payload prompt max_tokens).

Definition at_reply (E : env) (self : LMStudioBenchmark) (tr : trace)
    (prompt : string) (max_tokens : Z) : trace :=
  at_request E tr
  ++ [EvPost (completions_url self) (payload prompt max_tokens)
        (reply_of E self tr prompt max_tokens)].

Definition start_time_of (E : env) (tr : trace) : Q := time_time E tr.

Definition end_time_of (E : env) (self : LMStudioBenchmark) (tr : trace)
    (prompt : string) (max_tokens : Z) : Q :=
  time_time E (at_reply E self tr prompt max_tokens).

Definition start_rss_of (E : env) (tr : trace) : Z :=
  memory_rss E (tr ++ [EvTime (time_time E tr)]).

Definition end_rss_of (E : env) (self : LMStudioBenchmark) (tr : trace)
    (prompt : string) (max_tokens : Z) : Z :=
  memory_rss E (at_reply E self tr prompt max_tokens
                ++ [EvTime (end_time_of E self tr prompt max_tokens)]).

(** ** More sample environments *)

Module Demo.

(** [f"{x:.2f}"] on a rational: two decimals, ties to the even digit. *)
Definition hundredths (x : Q) : Z :=
  let v := 100 * Qnum x in
  let d := Zpos (Qden x) in
  let low := v / d in
  match (2 * (v mod d)) ?= d with
  | Lt => low
  | Gt => low + 1
  | Eq => if Z.even low then low else low + 1
  end.

Definition two_digits (z : Z) : string :=
  ((if (z <? 10)%Z then "0" else "") ++ str_of_int z)%string.

Definition two_decimals (x : Q) : string :=
  let c := hundredths x in
  ((if (Qnum x <? 0)%Z then "-" else "")
   ++ str_of_int (Z.abs c / 100)%Z ++ "."
   ++ two_digits (Z.abs c mod 100)%Z)%string.

(** A disk that takes every file. *)
Definition disk : report_env :=
  {| fixed2 := two_decimals; to_csv := fun _ _ => None |}.

(** A disk that refuses every file. *)
Definition read_only : report_env :=
  {| fixed2 := two_decimals;
     to_csv := fun _ _ => Some (OtherError "PermissionError") |}.

(** A [requests] that fails outside its own exception family. *)
Definition broken : env :=
  {| requests_get := fun _ _ => raise (OtherError "MemoryError");
     requests_post := fun _ _ _ => Sample.ok Sample.hello;
     time_time := Sample.clock;
     memory_rss := fun _ => 52428800;
     exn_str := Sample.class_name |}.

(** A server that lists its models and answers 500 to every completion
    request. *)
Definition failing : env :=
  {| requests_get := fun _ _ => Sample.status 200;
     requests_post := fun _ _ _ => Sample.status 500;
     time_time := Sample.clock;
     memory_rss := fun _ => 52428800;
     exn_str := Sample.class_name |}.

(** An answer whose token count is an integer with no float. *)
Definition huge : value :=
  PDict [("choices", PList [PDict [("message",
                                    PDict [("content", PStr "hello")])]]);
         ("usage", PDict [("total_tokens", PInt (10 ^ 400))])].

(** A server that reports such a count. *)
Definition boastful : env :=
  {| requests_get := fun _ _ => Sample.status 200;
     requests_post := fun _ _ _ => Sample.ok huge;
     time_time := Sample.clock;
     memory_rss := fun _ => 52428800;
     exn_str := Sample.class_name |}.

Definition boastful_record : value :=
  PDict [("prompt_length", PInt 2);
         ("error", PStr "OverflowError");
         ("success", PBool false)].

(** A server whose listing answers 200 to the first probe of a history
    and 503 to every later one. *)
Definition is_get (ev : event) : bool :=
  match ev with EvGet _ _ => true | _ => false end.

Definition going_down : env :=
  {| requests_get := fun tr _ =>
       if existsb is_get tr then Sample.status 503 else Sample.status 200;
     requests_post := fun _ _ _ => Sample.ok Sample.hello;
     time_time := Sample.clock;
     memory_rss := fun _ => 52428800;
     exn_str := Sample.class_name |}.

(** A server that answers with a redirect status and a full body. *)
Definition redirecting : env :=
  {| requests_get := fun _ _ => Sample.status 200;
     requests_post := fun _ _ _ =>
       ret {| status_code := 302; body := Some Sample.hello |};
     time_time := Sample.clock;
     memory_rss := fun tr => 52428800 + 1048576 * Z.of_nat (Sample.posts_so_far tr);
     exn_str := Sample.class_name |}.

End Demo.

(** * Properties *)

(** ** The collector: [measure_inference] *)

Lemma posted_app (a b : trace) : posted (a ++ b) = posted a ++ posted b.
Proof.
  induction a as [|ev a IH]; simpl; [reflexivity|].
  destruct ev; simpl; rewrite ?IH; reflexivity.
Qed.

Lemma try_block_trace E tr2 url prompt json t0 m0 :
  snd (try_block E tr2 url prompt json t0 m0) =
  let reply := requests_post E tr2 url json in
  tr2 ++ EvPost url json reply
      :: end_samples E (tr2 ++ [EvPost url json reply]) reply.
Proof.
  unfold try_block, end_samples; cbv zeta.
  destruct (requests_post E tr2 url json) as [e|r]; simpl.
  - reflexivity.
  - destruct (raise_for_status r); simpl; rewrite <- ?app_assoc; reflexivity.
Qed.

(** The call always comes back with a record: the one its [try] block
    built, or the failure record of the exception the block raised. *)
Lemma measure_inference_try E self tr prompt mt :
  measure_inference E self tr prompt mt =
  let blk := try_block E (at_request E tr) (completions_url self) prompt
               (payload prompt mt) (time_time E tr)
               (rss_mb (memory_rss E (tr ++ [EvTime (time_time E tr)]))) in
  (ret match fst blk with
       | inr m => m
       | inl e => failure_record E prompt e
       end, snd blk).
Proof.
  unfold measure_inference, at_request, completions_url; cbv zeta.
  destruct (try_block _ _ _ _ _ _ _) as [[e|m] tr']; reflexivity.
Qed.

Lemma measure_inference_returns E self tr prompt mt :
  exists m, fst (measure_inference E self tr prompt mt) = ret m.
Proof. rewrite measure_inference_try; cbv zeta; simpl; eauto. Qed.

Lemma measure_inference_base E self1 self2 tr prompt mt :
  base_url self1 = base_url self2 ->
  measure_inference E self1 tr prompt mt = measure_inference E self2 tr prompt mt.
Proof.
  intro H; rewrite !measure_inference_try; unfold completions_url.
  rewrite H; reflexivity.
Qed.

Lemma measure_inference_trace E self tr prompt mt :
  snd (measure_inference E self tr prompt mt) =
  let tr2 := at_request E tr in
  let url := completions_url self in
  let json := payload prompt mt in
  let reply := requests_post E tr2 url json in
  tr ++ EvTime (time_time E tr)
     :: EvRss (memory_rss E (tr ++ [EvTime (time_time E tr)]))
     :: EvPost url json reply
     :: end_samples E (tr2 ++ [EvPost url json reply]) reply.
Proof.
  rewrite measure_inference_try; cbv zeta; simpl snd.
  rewrite try_block_trace; cbv zeta.
  unfold at_request; rewrite <- !app_assoc; reflexivity.
Qed.

Lemma posted_end_samples E tr3 reply : posted (end_samples E tr3 reply) = [].
Proof.
  unfold end_samples; destruct reply as [e|r]; [reflexivity|].
  destruct (raise_for_status r); reflexivity.
Qed.

(** One call sends one request to the server. *)
Lemma measure_inference_posted E self tr prompt mt :
  exists added,
    snd (measure_inference E self tr prompt mt) = tr ++ added /\
    posted added = [(completions_url self, payload prompt mt)].
Proof.
  rewrite measure_inference_trace; cbv zeta.
  eexists; split; [reflexivity|].
  cbn [posted]; rewrite posted_end_samples; reflexivity.
Qed.

(** C8: one call of [measure_inference] sends exactly one request, to the
    chat-completion endpoint, and its body is the dictionary with one
    message of role "user" whose content is the prompt, the given
    [max_tokens], temperature 0.7 and streaming off. *)
Theorem measure_inference_request_body E self tr prompt max_tokens :
  exists added,
    snd (measure_inference E self tr prompt max_tokens) = tr ++ added /\
    posted added =
      [((base_url self ++ "/chat/completions")%string,
        PDict [("messages", PList [PDict [("role", PStr "user");
                                          ("content", PStr prompt)]]);
               ("max_tokens", PInt max_tokens);
               ("temperature", PFloat (7 # 10));
               ("stream", PBool false)])].
Proof.
  destruct (measure_inference_posted E self tr prompt max_tokens)
    as (added & Ht & Hp).
  exists added; split; [exact Ht | exact Hp].
Qed.


Lemma raise_for_status_ok r :
  ~ 400 <= status_code r < 600 -> raise_for_status r = ret tt.
Proof.
  intro H; unfold raise_for_status.
  destruct (400 <=? status_code r) eqn:H1; [|reflexivity].
  destruct (status_code r <? 600) eqn:H2; [|reflexivity].
  apply Z.leb_le in H1; apply Z.ltb_lt in H2; lia.
Qed.

Lemma try_block_value E tr2 url prompt json t0 m0 :
  fst (try_block E tr2 url prompt json t0 m0) =
  let reply := requests_post E tr2 url json in
  let tr3 := tr2 ++ [EvPost url json reply] in
  match reply with
  | inl e => raise e
  | inr r =>
      match raise_for_status r with
      | inl e => raise e
      | inr _ =>
          success_record prompt r t0 (time_time E tr3) m0
            (rss_mb (memory_rss E (tr3 ++ [EvTime (time_time E tr3)])))
      end
  end.
Proof.
  unfold try_block; cbv zeta.
  destruct (requests_post E tr2 url json) as [e|r]; [reflexivity|].
  destruct (raise_for_status r); reflexivity.
Qed.

(** What it takes for the record to be built. *)
Lemma success_record_inv prompt r t0 t1 m0 m1 m :
  success_record prompt r t0 t1 m0 m1 = ret m ->
  exists g total n q,
    read_fields r = ret (g, total) /\ len g = ret n /\
    as_number total = Some q /\ Qis_zero (t1 - t0) = false /\
    m = PDict [("prompt_length", PInt (Z.of_nat (String.length prompt)));
               ("response_length", PInt n);
               ("total_tokens", total);
               ("latency", PFloat (t1 - t0)%Q);
               ("tokens_per_second", PFloat (q / (t1 - t0))%Q);
               ("memory_usage_mb", PFloat (m1 - m0)%Q);
               ("success", PBool true)].
Proof.
  unfold success_record, bind.
  destruct (read_fields r) as [e|[g total]]; [discriminate|]; cbn [fst snd].
  destruct (len g) as [e|n] eqn:Hl; [discriminate|].
  unfold truediv.
  destruct (as_number total) as [q|] eqn:Hn; [|discriminate].
  destruct (int_overflows total); [discriminate|].
  destruct (Qis_zero (t1 - t0)) eqn:Hz; [discriminate|].
  intro H; injection H as <-.
  exists g, total, n, q; repeat split; assumption.
Qed.

(** The token count of a record that was built fits a float. *)
Lemma success_record_no_overflow prompt r t0 t1 m0 m1 m g total :
  success_record prompt r t0 t1 m0 m1 = ret m ->
  read_fields r = ret (g, total) -> int_overflows total = false.
Proof.
  unfold success_record, bind; intros H Hf; rewrite Hf in H.
  cbn [ret fst snd] in H.
  destruct (len g) as [e|n]; [discriminate H|].
  unfold truediv in H.
  destruct (as_number total); [|discriminate H].
  destruct (int_overflows total); [discriminate H | reflexivity].
Qed.

(** With equal clock samples no record is built, whatever was received;
    on a readable answer with a numeric token count the division raises,
    for the conversion of the count when it is too large for a float and
    for the zero divisor otherwise. *)
Lemma success_record_zero_latency prompt r t0 t1 m0 m1 :
  Qis_zero (t1 - t0) = true ->
  exists e,
    success_record prompt r t0 t1 m0 m1 = raise e /\
    forall g total n q,
      read_fields r = ret (g, total) -> len g = ret n ->
      as_number total = Some q ->
      e = if int_overflows total then OverflowError else ZeroDivisionError.
Proof.
  intro Hz; unfold success_record, bind.
  destruct (read_fields r) as [e|[g total]].
  - exists e; split; [reflexivity|]; intros; discriminate.
  - cbn [fst snd]; destruct (len g) as [e|n] eqn:Hl.
    + exists e; split; [reflexivity|].
      intros g' total' n' q' H; injection H as <- <-.
      unfold ret; congruence.
    + unfold truediv; destruct (as_number total) as [q|] eqn:Hn.
      * exists (if int_overflows total then OverflowError
                else ZeroDivisionError).
        split.
        { destruct (int_overflows total); [reflexivity|].
          rewrite Hz; reflexivity. }
        intros g' total' n' q' H; injection H as <- <-; reflexivity.
      * exists TypeError; split; [reflexivity|].
        intros g' total' n' q' H; injection H as <- <-.
        unfold ret; congruence.
Qed.

(** A document without a token count in a usage block reads as 0 tokens. *)
Lemma read_fields_default_tokens r doc g total :
  read_fields r = ret (g, total) -> body r = Some doc ->
  usage_total_tokens doc = None -> total = PInt 0.
Proof.
  unfold read_fields, response_json; intros H Hb Hu; rewrite Hb in H.
  unfold bind, ret in H; simpl in H.
  destruct doc as [| | | | | |d]; try discriminate H.
  simpl in H, Hu.
  destruct (dict_lookup d "choices") as [choices|]; [|discriminate H].
  simpl in H.
  destruct (getitem_int choices 0) as [e|choice]; [discriminate H|].
  destruct (getitem_str choice "message") as [e|message]; [discriminate H|].
  destruct (getitem_str message "content") as [e|text]; [discriminate H|].
  destruct (dict_lookup d "usage") as [usage|]; simpl in H.
  - destruct usage as [| | | | | |u]; try discriminate H.
    simpl in H; rewrite Hu in H; simpl in H. congruence.
  - congruence.
Qed.

(** A token count in the usage block is the one that is read. *)
Lemma read_fields_reported_tokens r doc g total v :
  read_fields r = ret (g, total) -> body r = Some doc ->
  usage_total_tokens doc = Some v -> total = v.
Proof.
  unfold read_fields, response_json; intros H Hb Hu; rewrite Hb in H.
  unfold bind, ret in H; simpl in H.
  destruct doc as [| | | | | |d]; try discriminate Hu.
  simpl in H, Hu.
  destruct (dict_lookup d "choices") as [choices|]; [|discriminate H].
  simpl in H.
  destruct (getitem_int choices 0) as [e|choice]; [discriminate H|].
  destruct (getitem_str choice "message") as [e|message]; [discriminate H|].
  destruct (getitem_str message "content") as [e|text]; [discriminate H|].
  destruct (dict_lookup d "usage") as [usage|]; [|discriminate Hu].
  destruct usage as [| | | | | |u]; try discriminate Hu.
  simpl in H; rewrite Hu in H; simpl in H. congruence.
Qed.


Lemma failure_record_not_success E prompt e :
  getitem_str (failure_record E prompt e) "success" = ret (PBool false).
Proof. reflexivity. Qed.



(** The shape of a call that went through: both clock samples and both
    memory samples are in the history, around the request. *)
Lemma measure_inference_success_inv E self tr prompt mt m tr' :
  measure_inference E self tr prompt mt = (ret m, tr') ->
  getitem_str m "success" = ret (PBool true) ->
  exists t0 r0 response t1 r1,
    tr' = tr ++ [EvTime t0; EvRss r0;
                 EvPost (completions_url self) (payload prompt mt)
                   (ret response);
                 EvTime t1; EvRss r1] /\
    success_record prompt response t0 t1 (rss_mb r0) (rss_mb r1) = ret m.
Proof.
  intros Hm Hs.
  pose proof (measure_inference_trace E self tr prompt mt) as Ht.
  pose proof (measure_inference_try E self tr prompt mt) as Hv.
  cbv zeta in Ht, Hv; rewrite Hm in Ht, Hv; simpl snd in Ht.
  injection Hv as Hv _.
  rewrite try_block_value in Hv; cbv zeta in Hv.
  destruct (requests_post E (at_request E tr) (completions_url self)
              (payload prompt mt)) as [e|r] eqn:Hp.
  - rewrite Hv in Hs; discriminate Hs.
  - unfold end_samples in Ht.
    destruct (raise_for_status r) as [e|[]].
    + rewrite Hv in Hs; discriminate Hs.
    + match type of Hv with
      | _ = match ?s with _ => _ end => destruct s as [e|m'] eqn:Hr
      end.
      * rewrite Hv in Hs; discriminate Hs.
      * subst m'. do 5 eexists; split; [exact Ht|].
        unfold at_request in Hr; exact Hr.
Qed.

(** C1: on a successful Measurement the tokens_per_second entry is the
    total_tokens entry divided by the latency entry, the latency being the
    end clock sample minus the start clock sample (and not zero); the
    total_tokens entry is the usage.total_tokens of the answer when it
    carries one, and when it carries none, total_tokens is 0 and so is
    tokens_per_second. *)
Theorem measure_inference_tokens_per_second E self tr prompt max_tokens m tr' :
  measure_inference E self tr prompt max_tokens = (ret m, tr') ->
  getitem_str m "success" = ret (PBool true) ->
  exists t0 r0 response t1 r1 total n,
    tr' = tr ++ [EvTime t0; EvRss r0;
                 EvPost (base_url self ++ "/chat/completions")%string
                   (payload prompt max_tokens) (ret response);
                 EvTime t1; EvRss r1] /\
    getitem_str m "total_tokens" = ret total /\
    as_number total = Some n /\
    getitem_str m "latency" = ret (PFloat (t1 - t0)%Q) /\
    ~ (t1 - t0 == 0)%Q /\
    getitem_str m "tokens_per_second" = ret (PFloat (n / (t1 - t0))%Q) /\
    (forall doc,
       body response = Some doc -> usage_total_tokens doc = None ->
       total = PInt 0 /\ (n / (t1 - t0) == 0)%Q) /\
    (forall doc reported,
       body response = Some doc ->
       usage_total_tokens doc = Some reported ->
       total = reported).
Proof.
  intros Hm Hs.
  destruct (measure_inference_success_inv _ _ _ _ _ _ _ Hm Hs)
    as (t0 & r0 & response & t1 & r1 & Htr & Hrec).
  destruct (success_record_inv _ _ _ _ _ _ _ Hrec)
    as (g & total & n & q & Hf & Hl & Hn & Hz & ->).
  exists t0, r0, response, t1, r1, total, q.
  split; [exact Htr|]. split; [reflexivity|]. split; [exact Hn|].
  split; [reflexivity|]. split.
  { intro Heq; apply Qeq_bool_iff in Heq.
    unfold Qis_zero in Hz; congruence. }
  split; [reflexivity|]. split.
  - intros doc Hb Hu.
    pose proof (read_fields_default_tokens _ _ _ _ Hf Hb Hu) as ->.
    split; [reflexivity|].
    simpl in Hn; injection Hn as <-.
    unfold Qdiv; apply Qmult_0_l.
  - intros doc reported Hb Hu.
    exact (read_fields_reported_tokens _ _ _ _ _ Hf Hb Hu).
Qed.

Lemma measure_inference_tokens_per_second_witness :
  measure_inference Sample.steady Sample.bench [] "hi" 100 =
    (ret Sample.steady_record, Sample.steady_history) /\
  getitem_str Sample.steady_record "success" = ret (PBool true) /\
  exists t0 r0 response t1 r1 total n,
    Sample.steady_history =
      [] ++ [EvTime t0; EvRss r0;
             EvPost (base_url Sample.bench ++ "/chat/completions")%string
               (payload "hi" 100) (ret response);
             EvTime t1; EvRss r1] /\
    getitem_str Sample.steady_record "total_tokens" = ret total /\
    as_number total = Some n /\
    getitem_str Sample.steady_record "latency" = ret (PFloat (t1 - t0)%Q) /\
    ~ (t1 - t0 == 0)%Q /\
    getitem_str Sample.steady_record "tokens_per_second" =
      ret (PFloat (n / (t1 - t0))%Q) /\
    (forall doc,
       body response = Some doc -> usage_total_tokens doc = None ->
       total = PInt 0 /\ (n / (t1 - t0) == 0)%Q) /\
    (forall doc reported,
       body response = Some doc ->
       usage_total_tokens doc = Some reported ->
       total = reported).
Proof.
  split; [reflexivity|]. split; [reflexivity|].
  apply (measure_inference_tokens_per_second
           Sample.steady Sample.bench [] "hi" 100); reflexivity.
Defined.

(** The two cases on concrete servers: five tokens reported in one second
    give a throughput of five, and an answer without a usage block gives a
    count and a throughput of zero. *)
Example tokens_per_second_on_samples :
  fst (measure_inference Sample.steady Sample.bench [] "hi" 100) =
    ret (PDict [("prompt_length", PInt 2); ("response_length", PInt 5);
                ("total_tokens", PInt 5); ("latency", PFloat 1);
                ("tokens_per_second", PFloat 5);
                ("memory_usage_mb", PFloat (0 # 1099511627776));
                ("success", PBool true)]) /\
  measure_inference Sample.terse Sample.bench [] "hi" 100 =
    (ret Sample.terse_record, Sample.terse_history) /\
  getitem_str Sample.terse_record "total_tokens" = ret (PInt 0) /\
  getitem_str Sample.terse_record "tokens_per_second" = ret (PFloat (0 # 1)).
Proof. repeat split; vm_compute; reflexivity. Qed.

(** C2, as the code has it: when the two clock samples of a call are
    equal, [measure_inference] returns the failure record of some
    exception (no throughput, infinite or finite, is produced, and nothing
    is raised to the caller); when the fields of the answer are readable
    and the token count is a number, that exception is an
    [ArithmeticError] raised by the division itself: its
    [ZeroDivisionError], or the [OverflowError] of a count too large to be
    converted to a float. *)
Theorem measure_inference_zero_latency
    E self tr prompt max_tokens out t0 r0 response t1 r1 :
  measure_inference E self tr prompt max_tokens =
    (out, tr ++ [EvTime t0; EvRss r0;
                 EvPost (base_url self ++ "/chat/completions")%string
                   (payload prompt max_tokens) (ret response);
                 EvTime t1; EvRss r1]) ->
  (t1 - t0 == 0)%Q ->
  exists e,
    out = ret (PDict [("prompt_length", PInt (Z.of_nat (String.length prompt)));
                      ("error", PStr (exn_str E e));
                      ("success", PBool false)]) /\
    forall g total n q,
      read_fields response = ret (g, total) -> len g = ret n ->
      as_number total = Some q ->
      e = (if int_overflows total then OverflowError
           else ZeroDivisionError) /\
      is_ArithmeticError e = true.
Proof.
  intros Hm Hz.
  pose proof (measure_inference_trace E self tr prompt max_tokens) as Ht.
  pose proof (measure_inference_try E self tr prompt max_tokens) as Hv.
  cbv zeta in Ht, Hv; rewrite Hm in Ht, Hv; simpl snd in Ht.
  injection Hv as Hv _.
  apply app_inv_head in Ht.
  unfold completions_url in Ht, Hv.
  injection Ht as Ht0 Hr0 Hp Hend.
  rewrite try_block_value in Hv; cbv zeta in Hv.
  rewrite <- Hp in Hv, Hend.
  unfold end_samples, ret in Hend, Hv; cbv iota beta in Hend, Hv.
  destruct (raise_for_status response) as [e|[]]; [discriminate Hend|].
  injection Hend as Ht1 _.
  apply Qeq_bool_iff in Hz; fold (Qis_zero (t1 - t0)) in Hz.
  rewrite <- Ht0, <- Ht1 in Hv.
  match type of Hv with
  | _ = inr match success_record ?p ?r ?a ?b ?c ?d with _ => _ end =>
      destruct (success_record_zero_latency p r a b c d Hz) as (e & He & Hdiv);
      rewrite He in Hv
  end.
  exists e; split; [exact Hv|].
  intros g total n q Hf Hl Hn.
  rewrite (Hdiv g total n q Hf Hl Hn); split; [reflexivity|].
  destruct (int_overflows total); reflexivity.
Qed.

Lemma measure_inference_zero_latency_witness :
  measure_inference Sample.frozen Sample.bench [] "hi" 100 =
    (ret Sample.frozen_record, Sample.frozen_history) /\
  (5 - 5 == 0)%Q /\
  exists e,
    ret Sample.frozen_record =
      ret (PDict [("prompt_length", PInt (Z.of_nat (String.length "hi")));
                  ("error", PStr (exn_str Sample.frozen e));
                  ("success", PBool false)]) /\
    forall g total n q,
      read_fields {| status_code := 200; body := Some Sample.hello |}
        = ret (g, total) ->
      len g = ret n -> as_number total = Some q ->
      e = (if int_overflows total then OverflowError
           else ZeroDivisionError) /\
      is_ArithmeticError e = true.
Proof.
  split; [reflexivity|]. split; [reflexivity|].
  apply (measure_inference_zero_latency
           Sample.frozen Sample.bench [] "hi" 100 (ret Sample.frozen_record)
           5%Q 52428800 {| status_code := 200; body := Some Sample.hello |}
           5%Q 52428800); reflexivity.
Defined.

(** C2, as stated, fails: with a clock that does not advance the call does
    not end in an [ArithmeticError]; it returns an ordinary failure
    record. *)
Lemma zero_latency_is_not_raised :
  snd (measure_inference Sample.frozen Sample.bench [] "hi" 100) =
    [EvTime 5; EvRss 52428800;
     EvPost "http://localhost:1234/v1/chat/completions" (payload "hi" 100)
       (Sample.ok Sample.hello);
     EvTime 5; EvRss 52428800] /\
  fst (measure_inference Sample.frozen Sample.bench [] "hi" 100) =
    ret (PDict [("prompt_length", PInt 2);
                ("error", PStr "ZeroDivisionError");
                ("success", PBool false)]) /\
  ~ (exists e,
       fst (measure_inference Sample.frozen Sample.bench [] "hi" 100) = raise e
       /\ is_ArithmeticError e = true).
Proof.
  split; [reflexivity|]. split; [reflexivity|].
  intros (e & He & _); discriminate He.
Qed.

(** ** The runner: [run_benchmark] *)

(** Every call of the collector returns a record with a boolean under
    "success". *)
Lemma measure_inference_record E self tr prompt mt :
  exists m tr' b,
    measure_inference E self tr prompt mt = (inr m, tr') /\
    getitem_str m "success" = ret (PBool b) /\
    getitem_str m "prompt_length" =
      ret (PInt (Z.of_nat (String.length prompt))).
Proof.
  rewrite measure_inference_try; cbv zeta.
  destruct (fst (try_block _ _ _ _ _ _ _)) as [e|m] eqn:Hb.
  - do 3 eexists; split; [reflexivity|]; split; reflexivity.
  - rewrite try_block_value in Hb; cbv zeta in Hb.
    destruct (requests_post _ _ _ _) as [e|r]; [discriminate Hb|].
    destruct (raise_for_status r) as [e|[]]; [discriminate Hb|].
    apply success_record_inv in Hb.
    destruct Hb as (g & total & n & q & _ & _ & _ & _ & ->).
    do 3 eexists; split; [reflexivity|]; split; reflexivity.
Qed.

Lemma trial_run_base E self1 self2 plan :
  base_url self1 = base_url self2 ->
  forall tr, trial_run E self1 tr plan = trial_run E self2 tr plan.
Proof.
  intro H; induction plan as [|p plan IH]; intro tr; cbn [trial_run].
  - reflexivity.
  - rewrite (measure_inference_base E self1 self2 tr p _ H).
    destruct (measure_inference E self2 tr p default_max_tokens) as [[e|m] tr'].
    + reflexivity.
    + rewrite IH; reflexivity.
Qed.

Lemma trial_run_app E self plan1 plan2 : forall tr,
  trial_run E self tr (plan1 ++ plan2) =
  (fst (trial_run E self tr plan1)
     ++ fst (trial_run E self (snd (trial_run E self tr plan1)) plan2),
   snd (trial_run E self (snd (trial_run E self tr plan1)) plan2)).
Proof.
  induction plan1 as [|p plan1 IH]; intro tr; cbn [trial_run app].
  - cbn [fst snd app]. destruct (trial_run E self tr plan2); reflexivity.
  - destruct (measure_inference_record E self tr p default_max_tokens)
      as (m & tr' & b & Hm & _).
    rewrite Hm, IH.
    destruct (trial_run E self tr' plan1) as [ms1 tr1]; cbn [fst snd].
    destruct (trial_run E self tr1 plan2) as [ms2 tr2]; reflexivity.
Qed.

(** Every planned trial yields a measurement, failed or not. *)
Lemma trial_run_length E self plan : forall tr,
  List.length (fst (trial_run E self tr plan)) = List.length plan.
Proof.
  induction plan as [|p plan IH]; intro tr; cbn [trial_run].
  - reflexivity.
  - destruct (measure_inference_record E self tr p default_max_tokens)
      as (m & tr' & b & Hm & _).
    rewrite Hm. specialize (IH tr').
    destruct (trial_run E self tr' plan) as [ms tr'']; cbn [fst] in *.
    cbn [List.length]; rewrite IH; reflexivity.
Qed.

(** The requests of a sequence of trials: one per planned prompt, in the
    order of the plan, each with the default token budget. *)
Lemma trial_run_trace E self plan : forall tr,
  exists added,
    snd (trial_run E self tr plan) = tr ++ added /\
    posted added = map (trial_request self) plan.
Proof.
  induction plan as [|p plan IH]; intro tr; cbn [trial_run].
  - exists []; rewrite app_nil_r; split; reflexivity.
  - destruct (measure_inference_record E self tr p default_max_tokens)
      as (m & tr' & b & Hm & _).
    destruct (measure_inference_posted E self tr p default_max_tokens)
      as (added1 & Ht1 & Hp1).
    rewrite Hm in Ht1 |- *; cbn [snd] in Ht1.
    destruct (IH tr') as (added2 & Ht2 & Hp2).
    destruct (trial_run E self tr' plan) as [ms tr'']; cbn [snd] in *.
    exists (added1 ++ added2); split.
    + rewrite Ht2, Ht1, app_assoc; reflexivity.
    + rewrite posted_app, Hp1, Hp2; reflexivity.
Qed.

(** The measurements line up with the plan. *)
Lemma trial_run_prompts E self plan : forall tr,
  Forall2 (fun p m =>
             getitem_str m "prompt_length" =
               ret (PInt (Z.of_nat (String.length p))))
          plan (fst (trial_run E self tr plan)).
Proof.
  induction plan as [|p plan IH]; intro tr; cbn [trial_run].
  - constructor.
  - destruct (measure_inference_record E self tr p default_max_tokens)
      as (m & tr' & b & Hm & _ & Hl).
    rewrite Hm. specialize (IH tr').
    destruct (trial_run E self tr' plan) as [ms tr'']; cbn [fst] in *.
    constructor; assumption.
Qed.

Lemma iterate_run E prompt n : forall self tr,
  iterate E prompt n self tr =
  (ret tt,
   {| base_url := base_url self;
      results := results self
                 ++ filter succeeded
                      (fst (trial_run E self tr (repeat prompt n))) |},
   snd (trial_run E self tr (repeat prompt n))).
Proof.
  induction n as [|n IH]; intros self tr; cbn [iterate trial_run repeat].
  - cbn [fst snd filter]; rewrite app_nil_r; destruct self; reflexivity.
  - destruct (measure_inference_record E self tr prompt default_max_tokens)
      as (m & tr' & b & Hm & Hb & _).
    rewrite Hm, Hb; cbn [ret truthy]; rewrite IH.
    assert (Hs : succeeded m = b) by (unfold succeeded; rewrite Hb; reflexivity).
    destruct b.
    + rewrite (trial_run_base E (results_append self m) self); [|reflexivity].
      destruct (trial_run E self tr' (repeat prompt n)) as [ms tr''].
      cbn [fst snd filter results_append base_url results]; rewrite Hs.
      rewrite <- app_assoc; reflexivity.
    + destruct (trial_run E self tr' (repeat prompt n)) as [ms tr''].
      cbn [fst snd filter]; rewrite Hs; reflexivity.
Qed.

Lemma for_prompts_run E iterations prompts : forall self tr,
  for_prompts E prompts iterations self tr =
  let run := trial_run E self tr (trial_plan prompts (Z.to_nat iterations)) in
  (ret tt,
   {| base_url := base_url self;
      results := results self ++ filter succeeded (fst run) |},
   snd run).
Proof.
  induction prompts as [|p prompts IH]; intros self tr;
    cbv zeta; cbn [for_prompts trial_plan flat_map].
  - cbn [trial_run fst snd filter]; rewrite app_nil_r; destruct self; reflexivity.
  - rewrite iterate_run; cbn [ret]; rewrite IH; cbv zeta.
    fold (trial_plan prompts (Z.to_nat iterations)).
    rewrite trial_run_app.
    match goal with
    | |- context [trial_run E (mkBenchmark ?u ?r) _ ?plan] =>
        rewrite (trial_run_base E (mkBenchmark u r) self plan eq_refl)
    end.
    cbn [fst snd base_url results].
    rewrite filter_app, app_assoc; reflexivity.
Qed.

(** What a run whose probe succeeded does. *)
Lemma run_benchmark_connected E self tr prompts iterations tr1 :
  check_connection E self tr = (ret true, tr1) ->
  run_benchmark E self tr prompts iterations =
  let run := trial_run E self (tr1 ++ [EvPrint (msg_running prompts iterations)])
               (trial_plan prompts (Z.to_nat iterations)) in
  (ret PNone,
   {| base_url := base_url self;
      results := results self ++ filter succeeded (fst run) |},
   snd run).
Proof.
  intro Hc; unfold run_benchmark; rewrite Hc; cbn [ret].
  rewrite for_prompts_run; reflexivity.
Qed.

(** What any run does to the measurement set. *)
Lemma run_benchmark_results E self tr prompts iterations :
  results (snd (fst (run_benchmark E self tr prompts iterations))) =
  results self ++ run_successes E self tr prompts iterations.
Proof.
  unfold run_successes.
  destruct (check_connection E self tr) as [[e|[|]] tr1] eqn:Hc.
  - unfold run_benchmark; rewrite Hc; cbn [fst snd]; rewrite app_nil_r; reflexivity.
  - rewrite (run_benchmark_connected _ _ _ _ _ _ Hc); reflexivity.
  - unfold run_benchmark; rewrite Hc; cbn [fst snd]; rewrite app_nil_r; reflexivity.
Qed.

Lemma check_connection_trace E self tr :
  snd (check_connection E self tr) =
  tr ++ [EvGet (models_url self) (requests_get E tr (models_url self))].
Proof.
  unfold check_connection, models_url; cbv zeta.
  destruct (requests_get E tr _) as [e|r]; [|reflexivity].
  destruct (is_RequestException e); reflexivity.
Qed.

Lemma check_connection_posted E self tr b tr1 :
  check_connection E self tr = (b, tr1) -> posted tr1 = posted tr.
Proof.
  intro H; pose proof (check_connection_trace E self tr) as Ht.
  rewrite H in Ht; cbn [snd] in Ht; subst tr1.
  rewrite posted_app; cbn [posted]; apply app_nil_r.
Qed.

(** A probe that does not succeed: a status other than 200, or a
    [RequestException]. *)
Lemma check_connection_fails E self tr :
  (exists r, requests_get E tr (models_url self) = ret r /\
             status_code r <> 200) \/
  (exists e, requests_get E tr (models_url self) = raise e /\
             is_RequestException e = true) ->
  fst (check_connection E self tr) = ret false.
Proof.
  unfold check_connection; fold (models_url self); cbv zeta.
  intros [(r & -> & Hs) | (e & -> & He)]; cbn [ret raise].
  - apply Z.eqb_neq in Hs; rewrite Hs; reflexivity.
  - rewrite He; reflexivity.
Qed.

(** C4, as the code has it: when the probe of the model listing answers
    with a status other than 200 or raises a [RequestException],
    [run_benchmark] stops right after reporting it: the history gains the
    probe and the message only, no completion request is sent, and the
    measurement set is left as it was, which is empty on a new object. *)
Theorem run_benchmark_aborts_when_unreachable E self tr prompts iterations :
  (exists r, requests_get E tr (base_url self ++ "/models")%string = ret r /\
             status_code r <> 200) \/
  (exists e, requests_get E tr (base_url self ++ "/models")%string = raise e /\
             is_RequestException e = true) ->
  run_benchmark E self tr prompts iterations =
    (ret PNone, self,
     tr ++ [EvGet (base_url self ++ "/models")%string
              (requests_get E tr (base_url self ++ "/models")%string);
            EvPrint msg_cannot_connect]) /\
  posted (snd (run_benchmark E self tr prompts iterations)) = posted tr /\
  (forall host port, self = init host port ->
     results (snd (fst (run_benchmark E self tr prompts iterations))) = []).
Proof.
  intro Hf.
  pose proof (check_connection_fails E self tr Hf) as Hc.
  pose proof (check_connection_trace E self tr) as Ht.
  assert (Hrun : run_benchmark E self tr prompts iterations =
    (ret PNone, self,
     tr ++ [EvGet (models_url self) (requests_get E tr (models_url self));
            EvPrint msg_cannot_connect])).
  { unfold run_benchmark.
    destruct (check_connection E self tr) as [b tr1]; cbn [fst snd] in Hc, Ht.
    subst b tr1; cbn [ret]; rewrite <- app_assoc; reflexivity. }
  unfold models_url in Hrun; rewrite Hrun; cbn [fst snd].
  split; [reflexivity|]; split.
  - rewrite posted_app; cbn [posted]; apply app_nil_r.
  - intros host port ->; reflexivity.
Qed.

Lemma run_benchmark_aborts_when_unreachable_witness :
  ((exists r, requests_get Sample.down []
                (base_url Sample.bench ++ "/models")%string = ret r /\
              status_code r <> 200) \/
   (exists e, requests_get Sample.down []
                (base_url Sample.bench ++ "/models")%string = raise e /\
              is_RequestException e = true)) /\
  run_benchmark Sample.down Sample.bench [] ["hi"; "you"] 3 =
    (ret PNone, Sample.bench,
     [] ++ [EvGet (base_url Sample.bench ++ "/models")%string
              (requests_get Sample.down []
                 (base_url Sample.bench ++ "/models")%string);
            EvPrint msg_cannot_connect]) /\
  posted (snd (run_benchmark Sample.down Sample.bench [] ["hi"; "you"] 3))
    = posted [] /\
  (forall host port, Sample.bench = init host port ->
     results (snd (fst (run_benchmark Sample.down Sample.bench []
                          ["hi"; "you"] 3))) = []).
Proof.
  assert (H : (exists r, requests_get Sample.down []
                  (base_url Sample.bench ++ "/models")%string = ret r /\
                status_code r <> 200) \/
              (exists e, requests_get Sample.down []
                  (base_url Sample.bench ++ "/models")%string = raise e /\
                is_RequestException e = true)).
  { left; exists {| status_code := 503; body := None |}.
    split; [reflexivity | simpl; lia]. }
  split; [exact H|].
  exact (run_benchmark_aborts_when_unreachable
           Sample.down Sample.bench [] ["hi"; "you"] 3 H).
Defined.

(** C4, as stated, fails on an object that has run before: the server
    answers the first probe and the trial of a first run, then 503 to the
    probe of a second run on the same object; that run is aborted without
    a completion request, and the set still holds the Measurement of the
    first run. *)
Lemma aborted_run_keeps_earlier_measurements :
  let run1 := run_benchmark Demo.going_down Sample.bench [] ["hi"] 1 in
  let run2 := run_benchmark Demo.going_down (snd (fst run1)) (snd run1)
                ["hi"] 1 in
  requests_get Demo.going_down (snd run1)
    (base_url (snd (fst run1)) ++ "/models")%string = Sample.status 503 /\
  fst (fst run2) = ret PNone /\
  posted (snd run2) = posted (snd run1) /\
  results (snd (fst run2)) = [Sample.steady_record] /\
  results (snd (fst run2)) <> [].
Proof.
  cbv zeta.
  split; [vm_compute; reflexivity|]. split; [vm_compute; reflexivity|].
  split; [vm_compute; reflexivity|].
  assert (H : results (snd (fst (run_benchmark Demo.going_down
                (snd (fst (run_benchmark Demo.going_down Sample.bench []
                             ["hi"] 1)))
                (snd (run_benchmark Demo.going_down Sample.bench [] ["hi"] 1))
                ["hi"] 1))) = [Sample.steady_record])
    by (vm_compute; reflexivity).
  split; [exact H|]. rewrite H; discriminate.
Qed.

(** The same when the server cannot be reached at all. *)
Example unreachable_run_aborts :
  run_benchmark Sample.unreachable Sample.bench [] ["hi"; "you"] 3 =
    (ret PNone, Sample.bench,
     [EvGet "http://localhost:1234/v1/models"
        (raise (RequestException "ConnectionError"));
      EvPrint msg_cannot_connect]).
Proof. reflexivity. Qed.

Lemma trial_plan_length prompts n :
  List.length (trial_plan prompts n) = (List.length prompts * n)%nat.
Proof.
  unfold trial_plan; induction prompts as [|p prompts IH]; cbn [flat_map].
  - reflexivity.
  - rewrite length_app, repeat_length, IH; reflexivity.
Qed.

(** Prompt-major, iteration-minor: trial [i * n + j] is iteration [j] of
    prompt [i]. *)
Lemma trial_plan_nth prompts n : forall i j p,
  nth_error prompts i = Some p -> (j < n)%nat ->
  nth_error (trial_plan prompts n) (i * n + j) = Some p.
Proof.
  unfold trial_plan; induction prompts as [|q prompts IH]; intros i j p Hi Hj.
  - destruct i; discriminate Hi.
  - cbn [flat_map]; destruct i as [|i]; cbn [nth_error] in Hi.
    + injection Hi as ->; cbn [Nat.mul Nat.add].
      rewrite nth_error_app1 by (rewrite repeat_length; exact Hj).
      apply nth_error_repeat; exact Hj.
    + rewrite nth_error_app2 by (rewrite repeat_length; lia).
      rewrite repeat_length.
      replace (S i * n + j - n)%nat with (i * n + j)%nat by lia.
      apply IH; assumption.
Qed.

Lemma Forall2_nth_error_l {A B} (P : A -> B -> Prop) l1 l2 :
  Forall2 P l1 l2 -> forall k a,
  nth_error l1 k = Some a -> exists b, nth_error l2 k = Some b /\ P a b.
Proof.
  induction 1 as [|x y l1 l2 Hxy _ IH]; intros k a Hk.
  - destruct k; discriminate Hk.
  - destruct k as [|k]; cbn [nth_error] in *.
    + injection Hk as <-; eauto.
    + apply IH; exact Hk.
Qed.

Lemma filter_all {A} (f : A -> bool) l :
  forallb f l = true -> filter f l = l.
Proof.
  induction l as [|a l IH]; cbn [forallb filter]; [reflexivity|].
  intro H; apply andb_true_iff in H as [Ha Hl].
  rewrite Ha, IH by exact Hl; reflexivity.
Qed.

Lemma trial_run_success_flags E self plan : forall tr,
  Forall (fun m => exists b, getitem_str m "success" = ret (PBool b))
         (fst (trial_run E self tr plan)).
Proof.
  induction plan as [|p plan IH]; intro tr; cbn [trial_run].
  - constructor.
  - destruct (measure_inference_record E self tr p default_max_tokens)
      as (m & tr' & b & Hm & Hb & _).
    rewrite Hm. specialize (IH tr').
    destruct (trial_run E self tr' plan) as [ms tr'']; cbn [fst] in *.
    constructor; eauto.
Qed.

(** A connected run: its result, its object and its history. *)
Lemma run_benchmark_connected_run E self tr prompts iterations tr1 :
  check_connection E self tr = (ret true, tr1) ->
  exists self' tr',
    run_benchmark E self tr prompts iterations = (ret PNone, self', tr') /\
    results self' =
      results self
      ++ filter succeeded (planned_trials E self tr1 prompts iterations) /\
    posted tr' =
      posted tr
      ++ map (trial_request self) (trial_plan prompts (Z.to_nat iterations)).
Proof.
  intro Hc; rewrite (run_benchmark_connected _ _ _ _ _ _ Hc); cbv zeta.
  do 2 eexists; split; [reflexivity|]; split; [reflexivity|].
  destruct (trial_run_trace E self
              (trial_plan prompts (Z.to_nat iterations))
              (tr1 ++ [EvPrint (msg_running prompts iterations)]))
    as (added & -> & Hp).
  rewrite !posted_app, Hp, (check_connection_posted _ _ _ _ _ Hc).
  cbn [posted]; rewrite app_nil_r; reflexivity.
Qed.

(** C5: with a positive iteration count N and M prompts, a run whose
    trials all succeed adds exactly N * M Measurements to the set (which
    then holds exactly these on a new object), one per trial and in the
    order of the trials: all N iterations of the first prompt, then those
    of the second, and so on. *)
Theorem run_benchmark_all_successful E self tr prompts iterations tr1 :
  0 < iterations ->
  check_connection E self tr = (ret true, tr1) ->
  forallb succeeded (planned_trials E self tr1 prompts iterations) = true ->
  exists self' tr',
    run_benchmark E self tr prompts iterations = (ret PNone, self', tr') /\
    results self' =
      results self ++ planned_trials E self tr1 prompts iterations /\
    Z.of_nat (List.length (planned_trials E self tr1 prompts iterations)) =
      iterations * Z.of_nat (List.length prompts) /\
    posted tr' =
      posted tr
      ++ map (trial_request self) (trial_plan prompts (Z.to_nat iterations)) /\
    forall i j prompt,
      nth_error prompts i = Some prompt -> (j < Z.to_nat iterations)%nat ->
      nth_error (trial_plan prompts (Z.to_nat iterations))
        (i * Z.to_nat iterations + j) = Some prompt /\
      exists m,
        nth_error (planned_trials E self tr1 prompts iterations)
          (i * Z.to_nat iterations + j) = Some m /\
        getitem_str m "prompt_length" =
          ret (PInt (Z.of_nat (String.length prompt))).
Proof.
  intros Hn Hc Hall.
  destruct (run_benchmark_connected_run E self tr prompts iterations tr1 Hc)
    as (self' & tr' & Hrun & Hres & Hposted).
  exists self', tr'.
  split; [exact Hrun|]. split; [rewrite Hres, (filter_all _ _ Hall); reflexivity|].
  split.
  { unfold planned_trials; rewrite trial_run_length, trial_plan_length; lia. }
  split; [exact Hposted|].
  intros i j prompt Hi Hj.
  pose proof (trial_plan_nth prompts _ i j prompt Hi Hj) as Hplan.
  split; [exact Hplan|].
  exact (Forall2_nth_error_l _ _ _
           (trial_run_prompts E self _ _) _ _ Hplan).
Qed.

Lemma run_benchmark_all_successful_witness :
  0 < 2 /\
  check_connection Sample.steady Sample.bench [] =
    (ret true, Sample.probed) /\
  forallb succeeded
    (planned_trials Sample.steady Sample.bench Sample.probed ["hi"; "you"] 2)
    = true /\
  exists self' tr',
    run_benchmark Sample.steady Sample.bench [] ["hi"; "you"] 2
      = (ret PNone, self', tr') /\
    results self' =
      results Sample.bench
      ++ planned_trials Sample.steady Sample.bench Sample.probed
           ["hi"; "you"] 2 /\
    Z.of_nat (List.length (planned_trials Sample.steady Sample.bench
                             Sample.probed ["hi"; "you"] 2)) =
      2 * Z.of_nat (List.length ["hi"; "you"]) /\
    posted tr' =
      posted []
      ++ map (trial_request Sample.bench)
           (trial_plan ["hi"; "you"] (Z.to_nat 2)) /\
    forall i j prompt,
      nth_error ["hi"; "you"] i = Some prompt -> (j < Z.to_nat 2)%nat ->
      nth_error (trial_plan ["hi"; "you"] (Z.to_nat 2))
        (i * Z.to_nat 2 + j) = Some prompt /\
      exists m,
        nth_error (planned_trials Sample.steady Sample.bench Sample.probed
                     ["hi"; "you"] 2)
          (i * Z.to_nat 2 + j) = Some m /\
        getitem_str m "prompt_length" =
          ret (PInt (Z.of_nat (String.length prompt))).
Proof.
  split; [lia|]. split; [reflexivity|]. split; [vm_compute; reflexivity|].
  apply (run_benchmark_all_successful
           Sample.steady Sample.bench [] ["hi"; "you"] 2 Sample.probed);
    [lia | reflexivity | vm_compute; reflexivity].
Defined.

(** C6: in a run, the trials of the whole plan are made, whatever each one
    returns; the set gains the Measurements whose success is true, in the
    order of the trials, and none of the others. *)
Theorem run_benchmark_drops_failures E self tr prompts iterations tr1 :
  check_connection E self tr = (ret true, tr1) ->
  exists self' tr',
    run_benchmark E self tr prompts iterations = (ret PNone, self', tr') /\
    results self' =
      results self
      ++ filter succeeded (planned_trials E self tr1 prompts iterations) /\
    List.length (planned_trials E self tr1 prompts iterations) =
      List.length (trial_plan prompts (Z.to_nat iterations)) /\
    posted tr' =
      posted tr
      ++ map (trial_request self) (trial_plan prompts (Z.to_nat iterations)) /\
    forall m,
      In m (planned_trials E self tr1 prompts iterations) ->
      (getitem_str m "success" = ret (PBool true) /\
       In m (filter succeeded (planned_trials E self tr1 prompts iterations)))
      \/
      (getitem_str m "success" = ret (PBool false) /\
       ~ In m (filter succeeded (planned_trials E self tr1 prompts iterations))).
Proof.
  intro Hc.
  destruct (run_benchmark_connected_run E self tr prompts iterations tr1 Hc)
    as (self' & tr' & Hrun & Hres & Hposted).
  exists self', tr'.
  split; [exact Hrun|]. split; [exact Hres|].
  split; [apply trial_run_length|]. split; [exact Hposted|].
  intros m Hin.
  pose proof (trial_run_success_flags E self
                (trial_plan prompts (Z.to_nat iterations))
                (tr1 ++ [EvPrint (msg_running prompts iterations)])) as Hflags.
  rewrite Forall_forall in Hflags.
  destruct (Hflags m Hin) as ([|] & Hb).
  - left; split; [exact Hb|].
    apply filter_In; split; [exact Hin|].
    unfold succeeded; rewrite Hb; reflexivity.
  - right; split; [exact Hb|].
    intro Hf; apply filter_In in Hf as [_ Hs].
    unfold succeeded in Hs; rewrite Hb in Hs; discriminate Hs.
Qed.

Lemma run_benchmark_drops_failures_witness :
  check_connection Sample.flaky Sample.bench [] =
    (ret true, Sample.probed) /\
  exists self' tr',
    run_benchmark Sample.flaky Sample.bench [] ["hi"; "you"] 3
      = (ret PNone, self', tr') /\
    results self' =
      results Sample.bench
      ++ filter succeeded
           (planned_trials Sample.flaky Sample.bench Sample.probed
              ["hi"; "you"] 3) /\
    List.length (planned_trials Sample.flaky Sample.bench Sample.probed
                   ["hi"; "you"] 3) =
      List.length (trial_plan ["hi"; "you"] (Z.to_nat 3)) /\
    posted tr' =
      posted []
      ++ map (trial_request Sample.bench)
           (trial_plan ["hi"; "you"] (Z.to_nat 3)) /\
    forall m,
      In m (planned_trials Sample.flaky Sample.bench Sample.probed
              ["hi"; "you"] 3) ->
      (getitem_str m "success" = ret (PBool true) /\
       In m (filter succeeded
               (planned_trials Sample.flaky Sample.bench Sample.probed
                  ["hi"; "you"] 3)))
      \/
      (getitem_str m "success" = ret (PBool false) /\
       ~ In m (filter succeeded
                 (planned_trials Sample.flaky Sample.bench Sample.probed
                    ["hi"; "you"] 3))).
Proof.
  split; [reflexivity|].
  apply (run_benchmark_drops_failures
           Sample.flaky Sample.bench [] ["hi"; "you"] 3 Sample.probed).
  reflexivity.
Defined.

(** On the flaky server three of the six trials of that run fail and are
    left out; the other three are kept, in order. *)
Example flaky_run_keeps_three :
  map (fun m => getitem_str m "success")
    (planned_trials Sample.flaky Sample.bench Sample.probed ["hi"; "you"] 3)
    = map (fun b => ret (PBool b)) [false; true; false; true; false; true] /\
  map (fun m => getitem_str m "prompt_length")
    (results (snd (fst (run_benchmark Sample.flaky Sample.bench []
                          ["hi"; "you"] 3))))
    = [ret (PInt 2); ret (PInt 3); ret (PInt 3)].
Proof. split; vm_compute; reflexivity. Qed.

(** C7, as the code has it: a run whose probe completes returns [None];
    the accumulated Measurement Set is not the result value, it is the
    [results] field of the object, to which the run has added its
    successful Measurements. *)
Theorem run_benchmark_returns_none E self tr prompts iterations b tr1 :
  check_connection E self tr = (ret b, tr1) ->
  fst (fst (run_benchmark E self tr prompts iterations)) = ret PNone /\
  results (snd (fst (run_benchmark E self tr prompts iterations))) =
    results self ++ run_successes E self tr prompts iterations.
Proof.
  intro Hc; split; [|apply run_benchmark_results].
  destruct b.
  - rewrite (run_benchmark_connected _ _ _ _ _ _ Hc); reflexivity.
  - unfold run_benchmark; rewrite Hc; reflexivity.
Qed.

Lemma run_benchmark_returns_none_witness :
  check_connection Sample.steady Sample.bench [] =
    (ret true, Sample.probed) /\
  fst (fst (run_benchmark Sample.steady Sample.bench [] ["hi"] 1))
    = ret PNone /\
  results (snd (fst (run_benchmark Sample.steady Sample.bench [] ["hi"] 1))) =
    results Sample.bench
    ++ run_successes Sample.steady Sample.bench [] ["hi"] 1.
Proof.
  split; [reflexivity|].
  apply (run_benchmark_returns_none
           Sample.steady Sample.bench [] ["hi"] 1 true Sample.probed).
  reflexivity.
Defined.

(** C7, as stated, fails: the run of the spec's scenario gathers one
    Measurement and returns [None], not the set. *)
Lemma run_benchmark_result_is_not_the_set :
  fst (fst (run_benchmark Sample.steady Sample.bench [] ["hi"] 1))
    = ret PNone /\
  results (snd (fst (run_benchmark Sample.steady Sample.bench [] ["hi"] 1)))
    = [Sample.steady_record] /\
  fst (fst (run_benchmark Sample.steady Sample.bench [] ["hi"] 1))
    <> ret (PList (results (snd (fst (run_benchmark Sample.steady
                                        Sample.bench [] ["hi"] 1))))).
Proof.
  split; [reflexivity|]. split; [reflexivity|].
  intro H; discriminate H.
Qed.

Lemma trial_request_max_tokens self prompt :
  getitem_str (snd (trial_request self prompt)) "max_tokens" = ret (PInt 100).
Proof. reflexivity. Qed.

(** C9: every completion request a run sends carries [max_tokens] 100:
    [run_benchmark] takes no token budget and calls the collector with its
    default. *)
Theorem run_benchmark_default_max_tokens E self tr prompts iterations :
  exists added,
    snd (run_benchmark E self tr prompts iterations) = tr ++ added /\
    Forall (fun request =>
              getitem_str (snd request) "max_tokens" = ret (PInt 100))
           (posted added).
Proof.
  pose proof (check_connection_trace E self tr) as Ht.
  destruct (check_connection E self tr) as [[e|[|]] tr1] eqn:Hc;
    cbn [snd] in Ht.
  - exists [EvGet (models_url self) (requests_get E tr (models_url self))].
    unfold run_benchmark; rewrite Hc; cbn [snd].
    split; [exact Ht | constructor].
  - rewrite (run_benchmark_connected _ _ _ _ _ _ Hc); cbv zeta; cbn [snd].
    destruct (trial_run_trace E self
                (trial_plan prompts (Z.to_nat iterations))
                (tr1 ++ [EvPrint (msg_running prompts iterations)]))
      as (added & -> & Hp).
    exists ([EvGet (models_url self) (requests_get E tr (models_url self));
             EvPrint (msg_running prompts iterations)] ++ added).
    split.
    + rewrite Ht, <- !app_assoc; reflexivity.
    + rewrite posted_app, Hp; cbn [posted app].
      apply Forall_forall; intros request Hin.
      apply in_map_iff in Hin as (prompt & <- & _).
      apply trial_request_max_tokens.
  - exists [EvGet (models_url self) (requests_get E tr (models_url self));
            EvPrint msg_cannot_connect].
    unfold run_benchmark; rewrite Hc; cbn [snd].
    split; [rewrite Ht, <- app_assoc; reflexivity | constructor].
Qed.

(** C10: [run_benchmark] only ever appends to [results]: after a second
    run on the same object the set is what it was before the first run,
    then what the first run added, then what the second run added. *)
Theorem run_benchmark_accumulates
    E self tr prompts1 iterations1 prompts2 iterations2 :
  let run1 := run_benchmark E self tr prompts1 iterations1 in
  let self1 := snd (fst run1) in
  let run2 := run_benchmark E self1 (snd run1) prompts2 iterations2 in
  results self1 =
    results self ++ run_successes E self tr prompts1 iterations1 /\
  results (snd (fst run2)) =
    results self1 ++ run_successes E self1 (snd run1) prompts2 iterations2 /\
  results (snd (fst run2)) =
    results self
    ++ run_successes E self tr prompts1 iterations1
    ++ run_successes E self1 (snd run1) prompts2 iterations2.
Proof.
  cbv zeta; split; [apply run_benchmark_results|].
  split; [apply run_benchmark_results|].
  rewrite run_benchmark_results, run_benchmark_results, <- app_assoc.
  reflexivity.
Qed.

(** Two runs of the spec's scenario on one object leave two Measurements
    in the set, the first run's before the second's. *)
Example two_runs_on_one_object :
  let run1 := run_benchmark Sample.steady Sample.bench [] ["hi"] 1 in
  let run2 := run_benchmark Sample.steady (snd (fst run1)) (snd run1)
                ["you"] 1 in
  map (fun m => getitem_str m "prompt_length") (results (snd (fst run2)))
    = [ret (PInt 2); ret (PInt 3)].
Proof. vm_compute; reflexivity. Qed.


(** ** Further properties of the collector *)

Lemma len_nonneg v n : len v = ret n -> 0 <= n.
Proof.
  destruct v; cbn [len]; unfold ret, raise; intro H;
    try discriminate H; injection H as <-; apply Nat2Z.is_nonneg.
Qed.

Lemma success_record_measurement prompt r t0 t1 m0 m1 m :
  success_record prompt r t0 t1 m0 m1 = ret m -> is_measurement m.
Proof.
  intro H; apply success_record_inv in H.
  destruct H as (g & total & n & q & _ & Hl & Hn & Hz & ->).
  exists (Z.of_nat (String.length prompt)), n, total, q, (t1 - t0)%Q,
         (m1 - m0)%Q.
  split; [exact Hn|]. split.
  - intro Heq; apply Qeq_bool_iff in Heq.
    unfold Qis_zero in Hz; congruence.
  - split; [apply Nat2Z.is_nonneg|].
    split; [exact (len_nonneg _ _ Hl) | reflexivity].
Qed.

(** Why the tail of the [try] block raises, when it does. *)
Lemma success_record_raises prompt r t0 t1 m0 m1 e :
  success_record prompt r t0 t1 m0 m1 = raise e ->
  read_fields r = raise e \/
  (exists g t, read_fields r = ret (g, t) /\ len g = raise e) \/
  (exists g t n, read_fields r = ret (g, t) /\ len g = ret n /\
                 as_number t = None /\ e = TypeError) \/
  (exists g t n q, read_fields r = ret (g, t) /\ len g = ret n /\
                   as_number t = Some q /\ int_overflows t = true /\
                   e = OverflowError) \/
  (exists g t n q, read_fields r = ret (g, t) /\ len g = ret n /\
                   as_number t = Some q /\ int_overflows t = false /\
                   Qis_zero (t1 - t0) = true /\ e = ZeroDivisionError).
Proof.
  unfold success_record, bind, raise, ret.
  destruct (read_fields r) as [e0|[g t]];
    [intro H; injection H as <-; left; reflexivity|].
  cbn [fst snd].
  destruct (len g) as [e0|n] eqn:Hl.
  { intro H; injection H as <-; right; left; exists g, t.
    split; [reflexivity | exact Hl]. }
  unfold truediv, raise, ret.
  destruct (as_number t) as [q|] eqn:Hn.
  - destruct (int_overflows t) eqn:Ho.
    + intro H; injection H as <-.
      right; right; right; left; exists g, t, n, q.
      repeat split; assumption.
    + destruct (Qis_zero (t1 - t0)) eqn:Hz; [|discriminate].
      intro H; injection H as <-.
      right; right; right; right; exists g, t, n, q.
      repeat split; assumption.
  - intro H; injection H as <-.
    right; right; left; exists g, t, n; repeat split; assumption.
Qed.

Lemma status_accepted_ok r :
  status_accepted (ret r) = true -> raise_for_status r = ret tt.
Proof.
  unfold status_accepted, raise_for_status, ret.
  destruct ((400 <=? status_code r) && (status_code r <? 600));
    [discriminate | reflexivity].
Qed.

Lemma status_accepted_error r :
  status_accepted (ret r) = false ->
  raise_for_status r = raise (HTTPError (status_code r)) /\
  400 <= status_code r < 600.
Proof.
  unfold status_accepted, raise_for_status, ret.
  destruct (400 <=? status_code r) eqn:H1;
    destruct (status_code r <? 600) eqn:H2; cbn [andb negb];
    try discriminate.
  intros _; split; [reflexivity|].
  apply Z.leb_le in H1; apply Z.ltb_lt in H2; lia.
Qed.

Lemma status_accepted_range r :
  status_accepted (ret r) = true -> ~ 400 <= status_code r < 600.
Proof.
  unfold status_accepted, ret; intros H [H1 H2].
  apply Z.leb_le in H1; apply Z.ltb_lt in H2.
  rewrite H1, H2 in H; discriminate H.
Qed.

(** The record a call returns is a complete Measurement or the failure
    record of some exception. *)
Lemma measure_inference_shape E self tr prompt mt :
  exists m tr',
    measure_inference E self tr prompt mt = (ret m, tr') /\
    (is_measurement m \/ exists e, m = failure_record E prompt e).
Proof.
  rewrite measure_inference_try; cbv zeta.
  destruct (fst (try_block _ _ _ _ _ _ _)) as [e|m] eqn:Hb.
  - do 2 eexists; split; [reflexivity|]; right; eauto.
  - do 2 eexists; split; [reflexivity|]; left.
    rewrite try_block_value in Hb; cbv zeta in Hb.
    destruct (requests_post _ _ _ _) as [e|r]; [discriminate Hb|].
    destruct (raise_for_status r) as [e|[]]; [discriminate Hb|].
    exact (success_record_measurement _ _ _ _ _ _ _ Hb).
Qed.

(** X2: [measure_inference] never raises.  Whatever the server, the clock
    and the prompt, it returns a record whose prompt_length is the
    character count of the prompt, and that record is either a complete
    Measurement (seven entries, success True) or the three-entry failure
    record of the exception caught. *)
Theorem measure_inference_always_returns E self tr prompt max_tokens :
  exists m,
    fst (measure_inference E self tr prompt max_tokens) = ret m /\
    getitem_str m "prompt_length" =
      ret (PInt (Z.of_nat (String.length prompt))) /\
    (is_measurement m \/
     exists e,
       m = PDict [("prompt_length", PInt (Z.of_nat (String.length prompt)));
                  ("error", PStr (exn_str E e));
                  ("success", PBool false)]).
Proof.
  destruct (measure_inference_shape E self tr prompt max_tokens)
    as (m & tr' & Hm & Hshape).
  destruct (measure_inference_record E self tr prompt max_tokens)
    as (m' & tr'' & b & Hm' & _ & Hl).
  rewrite Hm in Hm'; injection Hm' as <- <-.
  exists m; rewrite Hm; split; [reflexivity|]. split; [exact Hl|].
  exact Hshape.
Qed.

(** The value of a call, in terms of its reply and its samples. *)
Lemma measure_inference_value E self tr prompt mt :
  fst (measure_inference E self tr prompt mt) =
  ret match
        match reply_of E self tr prompt mt with
        | inl e => raise e
        | inr r =>
            match raise_for_status r with
            | inl e => raise e
            | inr _ =>
                success_record prompt r (start_time_of E tr)
                  (end_time_of E self tr prompt mt)
                  (rss_mb (start_rss_of E tr))
                  (rss_mb (end_rss_of E self tr prompt mt))
            end
        end
      with
      | inr m => m
      | inl e => failure_record E prompt e
      end.
Proof.
  rewrite measure_inference_try; cbv zeta; cbn [fst].
  rewrite try_block_value; cbv zeta.
  unfold end_rss_of, end_time_of, at_reply, reply_of, start_rss_of,
    start_time_of.
  destruct (requests_post E (at_request E tr) (completions_url self)
              (payload prompt mt)) as [e|r]; reflexivity.
Qed.

(** X3: the failures are all accounted for.  When the record returned has
    success False, it is the failure record of an exception that comes
    from one of the failures of the call (the request raised, the status
    was in 400..599, the body or its fields could not be read, the text
    had no length, the token count was not a number), or is an error of
    the division on an otherwise good answer: the [OverflowError] of an
    integer count too large for a float, or the [ZeroDivisionError] of a
    zero latency. *)
Theorem measure_inference_failure_causes E self tr prompt max_tokens m :
  fst (measure_inference E self tr prompt max_tokens) = ret m ->
  getitem_str m "success" = ret (PBool false) ->
  exists e,
    m = PDict [("prompt_length", PInt (Z.of_nat (String.length prompt)));
               ("error", PStr (exn_str E e));
               ("success", PBool false)] /\
    (trial_failure (reply_of E self tr prompt max_tokens) e \/
     (e = OverflowError /\
      exists r g total n q,
        reply_of E self tr prompt max_tokens = ret r /\
        ~ 400 <= status_code r < 600 /\
        read_fields r = ret (g, total) /\ len g = ret n /\
        as_number total = Some q /\ int_overflows total = true) \/
     (e = ZeroDivisionError /\
      (end_time_of E self tr prompt max_tokens - start_time_of E tr == 0)%Q /\
      exists r g total n q,
        reply_of E self tr prompt max_tokens = ret r /\
        ~ 400 <= status_code r < 600 /\
        read_fields r = ret (g, total) /\ len g = ret n /\
        as_number total = Some q /\ int_overflows total = false)).
Proof.
  rewrite measure_inference_value; intros Hm Hs.
  unfold ret in Hm; injection Hm as <-.
  destruct (reply_of E self tr prompt max_tokens) as [e|r] eqn:Hr.
  { exists e; split; [reflexivity|]; left; apply transport_failure; reflexivity. }
  destruct (status_accepted (ret r)) eqn:Ha.
  - rewrite (status_accepted_ok r Ha) in Hs |- *; cbn [ret] in Hs |- *.
    pose proof (status_accepted_range r Ha) as Hrange.
    destruct (success_record prompt r (start_time_of E tr)
                (end_time_of E self tr prompt max_tokens)
                (rss_mb (start_rss_of E tr))
                (rss_mb (end_rss_of E self tr prompt max_tokens)))
      as [e|m] eqn:Hrec.
    + exists e; split; [reflexivity|].
      destruct (success_record_raises _ _ _ _ _ _ _ Hrec)
        as [Hf | [(g & t & Hf & Hl) | [(g & t & n & Hf & Hl & Hn & ->)
           | [(g & t & n & q & Hf & Hl & Hn & Ho & ->)
           | (g & t & n & q & Hf & Hl & Hn & Ho & Hz & ->)]]]].
      * left; eapply parsing_failure; [reflexivity | exact Hrange | exact Hf].
      * left; eapply unsized_text_failure;
          [reflexivity | exact Hrange | exact Hf | exact Hl].
      * left; eapply token_count_failure;
          [reflexivity | exact Hrange | exact Hf | exact Hl | exact Hn].
      * right; left; split; [reflexivity|].
        exists r, g, t, n, q.
        split; [reflexivity|]. split; [exact Hrange|].
        repeat split; assumption.
      * right; right; split; [reflexivity|]. split.
        { apply Qeq_bool_iff; exact Hz. }
        exists r, g, t, n, q.
        split; [reflexivity|]. split; [exact Hrange|].
        repeat split; assumption.
    + apply success_record_inv in Hrec.
      destruct Hrec as (g & total & n & q & _ & _ & _ & _ & ->).
      discriminate Hs.
  - destruct (status_accepted_error r Ha) as [-> Hrange].
    exists (HTTPError (status_code r)); split; [reflexivity|].
    left; apply (http_status_failure _ r); [reflexivity | exact Hrange].
Qed.

Lemma measure_inference_failure_causes_witness :
  fst (measure_inference Demo.boastful Sample.bench [] "hi" 100)
    = ret Demo.boastful_record /\
  getitem_str Demo.boastful_record "success" = ret (PBool false) /\
  exists e,
    Demo.boastful_record =
      PDict [("prompt_length", PInt (Z.of_nat (String.length "hi")));
             ("error", PStr (exn_str Demo.boastful e));
             ("success", PBool false)] /\
    (trial_failure (reply_of Demo.boastful Sample.bench [] "hi" 100) e \/
     (e = OverflowError /\
      exists r g total n q,
        reply_of Demo.boastful Sample.bench [] "hi" 100 = ret r /\
        ~ 400 <= status_code r < 600 /\
        read_fields r = ret (g, total) /\ len g = ret n /\
        as_number total = Some q /\ int_overflows total = true) \/
     (e = ZeroDivisionError /\
      (end_time_of Demo.boastful Sample.bench [] "hi" 100
       - start_time_of Demo.boastful [] == 0)%Q /\
      exists r g total n q,
        reply_of Demo.boastful Sample.bench [] "hi" 100 = ret r /\
        ~ 400 <= status_code r < 600 /\
        read_fields r = ret (g, total) /\ len g = ret n /\
        as_number total = Some q /\ int_overflows total = false)).
Proof.
  split; [vm_compute; reflexivity|]. split; [reflexivity|].
  apply (measure_inference_failure_causes
           Demo.boastful Sample.bench [] "hi" 100);
    [vm_compute; reflexivity | reflexivity].
Defined.

(** X4: a reply whose status is outside 400..599 (a 302 or a 101 as well
    as a 200), whose fields can be read, whose text has a length and whose
    token count is a number that fits a float gives, when the clock has
    moved, the complete Measurement: response_length is the length of the
    text and memory_usage_mb the end sample minus the start sample, in
    megabytes. *)
Theorem measure_inference_succeeds
    E self tr prompt max_tokens r g total n q :
  reply_of E self tr prompt max_tokens = ret r ->
  ~ 400 <= status_code r < 600 ->
  read_fields r = ret (g, total) ->
  len g = ret n ->
  as_number total = Some q ->
  int_overflows total = false ->
  ~ (end_time_of E self tr prompt max_tokens - start_time_of E tr == 0)%Q ->
  fst (measure_inference E self tr prompt max_tokens) =
    ret (PDict
           [("prompt_length", PInt (Z.of_nat (String.length prompt)));
            ("response_length", PInt n);
            ("total_tokens", total);
            ("latency",
             PFloat (end_time_of E self tr prompt max_tokens
                     - start_time_of E tr)%Q);
            ("tokens_per_second",
             PFloat (q / (end_time_of E self tr prompt max_tokens
                          - start_time_of E tr))%Q);
            ("memory_usage_mb",
             PFloat (rss_mb (end_rss_of E self tr prompt max_tokens)
                     - rss_mb (start_rss_of E tr))%Q);
            ("success", PBool true)]).
Proof.
  intros Hr Hs Hf Hl Hn Ho Hz.
  rewrite measure_inference_value, Hr; cbn [ret].
  rewrite (raise_for_status_ok r Hs); cbn [ret].
  unfold success_record; rewrite Hf; cbn [bind ret fst snd].
  rewrite Hl; cbn [bind ret]; unfold truediv; rewrite Hn, Ho.
  destruct (Qis_zero (end_time_of E self tr prompt max_tokens
                      - start_time_of E tr)) eqn:Hq.
  - exfalso; apply Hz; apply Qeq_bool_iff; exact Hq.
  - reflexivity.
Qed.

Lemma measure_inference_succeeds_witness :
  reply_of Demo.redirecting Sample.bench [] "hi" 100 =
    ret {| status_code := 302; body := Some Sample.hello |} /\
  fst (measure_inference Demo.redirecting Sample.bench [] "hi" 100) =
    ret (PDict
           [("prompt_length", PInt (Z.of_nat (String.length "hi")));
            ("response_length", PInt 5);
            ("total_tokens", PInt 5);
            ("latency",
             PFloat (end_time_of Demo.redirecting Sample.bench [] "hi" 100
                     - start_time_of Demo.redirecting [])%Q);
            ("tokens_per_second",
             PFloat (5 / (end_time_of Demo.redirecting Sample.bench [] "hi" 100
                          - start_time_of Demo.redirecting []))%Q);
            ("memory_usage_mb",
             PFloat (rss_mb (end_rss_of Demo.redirecting Sample.bench []
                               "hi" 100)
                     - rss_mb (start_rss_of Demo.redirecting []))%Q);
            ("success", PBool true)]).
Proof.
  split; [reflexivity|].
  apply (measure_inference_succeeds Demo.redirecting Sample.bench [] "hi" 100
           {| status_code := 302; body := Some Sample.hello |}
           (PStr "hello") (PInt 5) 5 5%Q).
  - reflexivity.
  - simpl; lia.
  - reflexivity.
  - reflexivity.
  - reflexivity.
  - vm_compute; reflexivity.
  - vm_compute; discriminate.
Defined.

(** X5: the order of the samples.  A call reads the clock, then the
    memory, then sends its request; it reads both again exactly when a
    reply came and its status was accepted, whether or not the body can
    then be decoded, and not at all after a transport or status error. *)
Theorem measure_inference_history E self tr prompt max_tokens :
  snd (measure_inference E self tr prompt max_tokens) =
  tr ++ [EvTime (start_time_of E tr); EvRss (start_rss_of E tr);
         EvPost (base_url self ++ "/chat/completions")%string
           (payload prompt max_tokens)
           (reply_of E self tr prompt max_tokens)]
     ++ (if status_accepted (reply_of E self tr prompt max_tokens)
         then [EvTime (end_time_of E self tr prompt max_tokens);
               EvRss (end_rss_of E self tr prompt max_tokens)]
         else []).
Proof.
  rewrite measure_inference_trace; cbv zeta.
  unfold end_samples, status_accepted, raise_for_status.
  fold (reply_of E self tr prompt max_tokens).
  fold (at_reply E self tr prompt max_tokens).
  fold (end_time_of E self tr prompt max_tokens).
  fold (end_rss_of E self tr prompt max_tokens).
  destruct (reply_of E self tr prompt max_tokens) as [e|r]; [reflexivity|].
  destruct ((400 <=? status_code r) && (status_code r <? 600)); reflexivity.
Qed.

(** ** Further properties of the runner *)

(** X1: an exception of the probe that is not a [RequestException] is not
    caught anywhere: [run_benchmark] raises it, having printed nothing,
    made no trial and left the measurement set alone. *)
Theorem run_benchmark_probe_exception E self tr prompts iterations e :
  requests_get E tr (base_url self ++ "/models")%string = raise e ->
  is_RequestException e = false ->
  run_benchmark E self tr prompts iterations =
    (raise e, self,
     tr ++ [EvGet (base_url self ++ "/models")%string (raise e)]).
Proof.
  intros Hg He; unfold run_benchmark, check_connection; cbv zeta.
  rewrite Hg; cbn [raise]; rewrite He; reflexivity.
Qed.

Lemma run_benchmark_probe_exception_witness :
  requests_get Demo.broken [] (base_url Sample.bench ++ "/models")%string
    = raise (OtherError "MemoryError") /\
  is_RequestException (OtherError "MemoryError") = false /\
  run_benchmark Demo.broken Sample.bench [] ["hi"; "you"] 3 =
    (raise (OtherError "MemoryError"), Sample.bench,
     [] ++ [EvGet (base_url Sample.bench ++ "/models")%string
              (raise (OtherError "MemoryError"))]).
Proof.
  split; [reflexivity|]. split; [reflexivity|].
  apply (run_benchmark_probe_exception Demo.broken Sample.bench []
           ["hi"; "you"] 3 (OtherError "MemoryError")); reflexivity.
Defined.

Lemma trial_plan_no_iterations prompts : trial_plan prompts 0 = [].
Proof.
  unfold trial_plan; induction prompts as [|p prompts IH];
    cbn [flat_map repeat app]; [reflexivity | exact IH].
Qed.

Lemma benchmark_eta self :
  {| base_url := base_url self; results := results self ++ [] |} = self.
Proof. destruct self; cbn [base_url results]; rewrite app_nil_r; reflexivity. Qed.

(** X6: with no prompt, or an iteration count of zero or less, a run that
    reaches the server prints its banner and stops: no trial is made and
    the object is unchanged. *)
Theorem run_benchmark_nothing_to_do E self tr prompts iterations tr1 :
  check_connection E self tr = (ret true, tr1) ->
  prompts = [] \/ iterations <= 0 ->
  run_benchmark E self tr prompts iterations =
    (ret PNone, self, tr1 ++ [EvPrint (msg_running prompts iterations)]) /\
  posted (tr1 ++ [EvPrint (msg_running prompts iterations)]) = posted tr.
Proof.
  intros Hc Hempty.
  assert (Hplan : trial_plan prompts (Z.to_nat iterations) = []).
  { destruct Hempty as [-> | Hn]; [reflexivity|].
    replace (Z.to_nat iterations) with 0%nat by lia.
    apply trial_plan_no_iterations. }
  split.
  - rewrite (run_benchmark_connected _ _ _ _ _ _ Hc); cbv zeta.
    rewrite Hplan; cbn [trial_run fst snd filter].
    rewrite benchmark_eta; reflexivity.
  - rewrite posted_app, (check_connection_posted _ _ _ _ _ Hc).
    cbn [posted]; apply app_nil_r.
Qed.

Lemma run_benchmark_nothing_to_do_witness :
  check_connection Sample.steady Sample.bench [] =
    (ret true, Sample.probed) /\
  (["hi"; "you"] = [] \/ -2 <= 0) /\
  run_benchmark Sample.steady Sample.bench [] ["hi"; "you"] (-2) =
    (ret PNone, Sample.bench,
     Sample.probed ++ [EvPrint (msg_running ["hi"; "you"] (-2))]) /\
  posted (Sample.probed ++ [EvPrint (msg_running ["hi"; "you"] (-2))])
    = posted [].
Proof.
  split; [reflexivity|]. split; [right; lia|].
  apply (run_benchmark_nothing_to_do Sample.steady Sample.bench []
           ["hi"; "you"] (-2) Sample.probed); [reflexivity | right; lia].
Defined.

Lemma is_measurement_succeeded m : is_measurement m -> succeeded m = true.
Proof.
  intros (pl & rl & total & q & lat & mem & _ & _ & _ & _ & ->); reflexivity.
Qed.

Lemma failure_record_dropped E prompt e :
  succeeded (failure_record E prompt e) = false.
Proof. reflexivity. Qed.

(** The records of a sequence of trials that pass the runner's test are
    complete Measurements. *)
Lemma trial_run_measurements E self plan : forall tr,
  Forall is_measurement (filter succeeded (fst (trial_run E self tr plan))).
Proof.
  induction plan as [|p plan IH]; intro tr; cbn [trial_run].
  - constructor.
  - destruct (measure_inference_shape E self tr p default_max_tokens)
      as (m & tr' & Hm & Hshape).
    unfold ret in Hm; rewrite Hm. specialize (IH tr').
    destruct (trial_run E self tr' plan) as [ms tr'']; cbn [fst filter] in *.
    destruct Hshape as [Hmeas | (e & ->)].
    + rewrite (is_measurement_succeeded m Hmeas); constructor; assumption.
    + rewrite failure_record_dropped; exact IH.
Qed.

Lemma run_successes_measurements E self tr prompts iterations :
  Forall is_measurement (run_successes E self tr prompts iterations).
Proof.
  unfold run_successes, planned_trials.
  destruct (check_connection E self tr) as [[e|[|]] tr1]; try constructor.
  apply trial_run_measurements.
Qed.

(** X7: the measurement set only ever holds complete Measurements.  If
    every record of [results] is one before a run (as on a new object),
    every record is one after it: seven entries, success True, a latency
    other than zero and a throughput equal to the token count over it. *)
Theorem run_benchmark_keeps_measurements E self tr prompts iterations :
  Forall is_measurement (results self) ->
  Forall is_measurement
    (results (snd (fst (run_benchmark E self tr prompts iterations)))).
Proof.
  intro H; rewrite run_benchmark_results.
  apply Forall_app; split; [exact H | apply run_successes_measurements].
Qed.

Lemma run_benchmark_keeps_measurements_witness :
  Forall is_measurement (results Sample.bench) /\
  Forall is_measurement
    (results (snd (fst (run_benchmark Sample.flaky Sample.bench []
                          ["hi"; "you"] 3)))).
Proof.
  split; [constructor|].
  apply (run_benchmark_keeps_measurements Sample.flaky Sample.bench []
           ["hi"; "you"] 3).
  constructor.
Defined.

Lemma filter_length_le {A} (f : A -> bool) l :
  (List.length (filter f l) <= List.length l)%nat.
Proof.
  induction l as [|a l IH]; cbn [filter List.length]; [lia|].
  destruct (f a); cbn [List.length]; lia.
Qed.

(** X8: a run adds at most one Measurement per planned trial: the set
    keeps what it held, in the same order, and grows by no more than the
    number of prompts times the number of iterations. *)
Theorem run_benchmark_growth_bound E self tr prompts iterations :
  exists added,
    results (snd (fst (run_benchmark E self tr prompts iterations))) =
      results self ++ added /\
    (List.length added <= List.length prompts * Z.to_nat iterations)%nat.
Proof.
  exists (run_successes E self tr prompts iterations).
  split; [apply run_benchmark_results|].
  unfold run_successes, planned_trials.
  destruct (check_connection E self tr) as [[e|[|]] tr1];
    cbn [List.length]; try lia.
  eapply Nat.le_trans; [apply filter_length_le|].
  rewrite trial_run_length, trial_plan_length; lia.
Qed.

(** ** The report and the whole program *)




(** The three columns of the summary can be read from a table of complete
    Measurements. *)
Lemma column_of_measurements key :
  (forall m, is_measurement m -> exists q, getitem_str m key = ret (PFloat q)) ->
  forall rows, Forall is_measurement rows ->
  exists qs,
    column rows key = Some qs /\
    Forall2 (fun m q => getitem_str m key = ret (PFloat q)) rows qs.
Proof.
  intros Hkey rows H; induction H as [|m rows Hm _ (qs & Hc & Hall)].
  - exists []; split; [reflexivity | constructor].
  - destruct (Hkey m Hm) as (q & Hq).
    exists (q :: qs); split; [|constructor; assumption].
    cbn [column]; rewrite Hq, Hc; reflexivity.
Qed.

Lemma measurement_latency m :
  is_measurement m -> exists q, getitem_str m "latency" = ret (PFloat q).
Proof.
  intros (pl & rl & total & q & lat & mem & _ & _ & _ & _ & ->);
    eexists; reflexivity.
Qed.

Lemma measurement_tokens_per_second m :
  is_measurement m ->
  exists q, getitem_str m "tokens_per_second" = ret (PFloat q).
Proof.
  intros (pl & rl & total & q & lat & mem & _ & _ & _ & _ & ->);
    eexists; reflexivity.
Qed.

Lemma measurement_memory m :
  is_measurement m ->
  exists q, getitem_str m "memory_usage_mb" = ret (PFloat q).
Proof.
  intros (pl & rl & total & q & lat & mem & _ & _ & _ & _ & ->);
    eexists; reflexivity.
Qed.

(** What [generate_report] does on a non-empty table of complete
    Measurements that the disk accepts. *)
Lemma generate_report_table R self path :
  results self <> [] ->
  Forall is_measurement (results self) ->
  to_csv R path (results self) = None ->
  exists latency tokens memory,
    generate_report R self path =
      Some (ret PNone,
            CsvWritten path (results self)
            :: summary R latency tokens memory path) /\
    Forall2 (fun m q => getitem_str m "latency" = ret (PFloat q))
      (results self) latency /\
    Forall2 (fun m q => getitem_str m "tokens_per_second" = ret (PFloat q))
      (results self) tokens /\
    Forall2 (fun m q => getitem_str m "memory_usage_mb" = ret (PFloat q))
      (results self) memory.
Proof.
  intros Hne Hall Hcsv.
  destruct (column_of_measurements "latency" measurement_latency _ Hall)
    as (l & Hl & Hl2).
  destruct (column_of_measurements "tokens_per_second"
              measurement_tokens_per_second _ Hall) as (t & Ht & Ht2).
  destruct (column_of_measurements "memory_usage_mb" measurement_memory
              _ Hall) as (m & Hm & Hm2).
  exists l, t, m; split; [|repeat split; assumption].
  unfold generate_report; cbv zeta.
  destruct (results self) as [|row rows] eqn:Hrows; [contradiction|].
  rewrite Hcsv, Hl, Ht, Hm; reflexivity.
Qed.

(** X9: the report holds everything gathered so far.  On an object whose
    set is not empty and holds complete Measurements (what runs leave
    behind), [generate_report] writes one file, at the path given, with
    all the records of [results] in their order, and then prints the
    summary, whose three averages are taken over the latency,
    tokens_per_second and memory_usage_mb entries of those records. *)
Theorem generate_report_writes_all_results R self output_file :
  results self <> [] ->
  Forall is_measurement (results self) ->
  to_csv R output_file (results self) = None ->
  exists latency tokens memory,
    generate_report R self output_file =
      Some (ret PNone,
            [CsvWritten output_file (results self);
             Io (EvPrint (newline ++ "Benchmark Summary:")%string);
             Io (EvPrint ("Average latency: " ++ fixed2 R (mean latency)
                          ++ " seconds")%string);
             Io (EvPrint ("Average tokens/second: "
                          ++ fixed2 R (mean tokens))%string);
             Io (EvPrint ("Average memory usage: " ++ fixed2 R (mean memory)
                          ++ " MB")%string);
             Io (EvPrint (newline ++ "Detailed results saved to "
                          ++ output_file)%string)]) /\
    Forall2 (fun m q => getitem_str m "latency" = ret (PFloat q))
      (results self) latency /\
    Forall2 (fun m q => getitem_str m "tokens_per_second" = ret (PFloat q))
      (results self) tokens /\
    Forall2 (fun m q => getitem_str m "memory_usage_mb" = ret (PFloat q))
      (results self) memory.
Proof.
  intros Hne Hall Hcsv.
  exact (generate_report_table R self output_file Hne Hall Hcsv).
Qed.

Lemma generate_report_writes_all_results_witness :
  results (mkBenchmark "http://localhost:1234/v1" [Sample.steady_record])
    <> [] /\
  Forall is_measurement
    (results (mkBenchmark "http://localhost:1234/v1" [Sample.steady_record]))
  /\
  to_csv Demo.disk "out.csv"
    (results (mkBenchmark "http://localhost:1234/v1" [Sample.steady_record]))
    = None /\
  exists latency tokens memory,
    generate_report Demo.disk
      (mkBenchmark "http://localhost:1234/v1" [Sample.steady_record])
      "out.csv" =
      Some (ret PNone,
            [CsvWritten "out.csv"
               (results (mkBenchmark "http://localhost:1234/v1"
                           [Sample.steady_record]));
             Io (EvPrint (newline ++ "Benchmark Summary:")%string);
             Io (EvPrint ("Average latency: "
                          ++ fixed2 Demo.disk (mean latency)
                          ++ " seconds")%string);
             Io (EvPrint ("Average tokens/second: "
                          ++ fixed2 Demo.disk (mean tokens))%string);
             Io (EvPrint ("Average memory usage: "
                          ++ fixed2 Demo.disk (mean memory)
                          ++ " MB")%string);
             Io (EvPrint (newline ++ "Detailed results saved to "
                          ++ "out.csv")%string)]) /\
    Forall2 (fun m q => getitem_str m "latency" = ret (PFloat q))
      (results (mkBenchmark "http://localhost:1234/v1" [Sample.steady_record]))
      latency /\
    Forall2 (fun m q => getitem_str m "tokens_per_second" = ret (PFloat q))
      (results (mkBenchmark "http://localhost:1234/v1" [Sample.steady_record]))
      tokens /\
    Forall2 (fun m q => getitem_str m "memory_usage_mb" = ret (PFloat q))
      (results (mkBenchmark "http://localhost:1234/v1" [Sample.steady_record]))
      memory.
Proof.
  assert (Hm : Forall is_measurement [Sample.steady_record]).
  { constructor; [|constructor].
    exists 2, 5, (PInt 5), 5%Q, (1 - 0)%Q,
           (rss_mb 52428800 - rss_mb 52428800)%Q.
    split; [reflexivity|]. split; [vm_compute; discriminate|].
    split; [lia|]. split; [lia | reflexivity]. }
  split; [discriminate|]. split; [exact Hm|]. split; [reflexivity|].
  apply (generate_report_writes_all_results Demo.disk
           (mkBenchmark "http://localhost:1234/v1" [Sample.steady_record])
           "out.csv"); [discriminate | exact Hm | reflexivity].
Defined.

Lemma generate_report_empty R self path :
  results self = [] ->
  generate_report R self path = Some (ret PNone, [Io (EvPrint msg_no_results)]).
Proof. intro H; unfold generate_report; rewrite H; reflexivity. Qed.

Lemma run_benchmark_not_connected E self tr prompts iterations tr1 :
  check_connection E self tr = (ret false, tr1) ->
  run_benchmark E self tr prompts iterations =
    (ret PNone, self, tr1 ++ [EvPrint msg_cannot_connect]).
Proof. intro Hc; unfold run_benchmark; rewrite Hc; reflexivity. Qed.


Lemma filter_none {A} (f : A -> bool) l :
  forallb (fun a => negb (f a)) l = true -> filter f l = [].
Proof.
  induction l as [|a l IH]; cbn [forallb filter]; [reflexivity|].
  intro H; apply andb_true_iff in H as [Ha Hl].
  apply negb_true_iff in Ha; rewrite Ha; exact (IH Hl).
Qed.

(** What [main] does once the server has been reached. *)
Lemma main_connected E R a tr tr1 :
  check_connection E (init (host a) (port a)) tr = (ret true, tr1) ->
  main E R a tr =
  let bench := init (host a) (port a) in
  let run := trial_run E bench
               (tr1 ++ [EvPrint (msg_running test_prompts (iterations a))])
               (trial_plan test_prompts (Z.to_nat (iterations a))) in
  match generate_report R
          {| base_url := base_url bench;
             results := filter succeeded
                          (planned_trials E bench tr1 test_prompts
                             (iterations a)) |}
          default_output_file with
  | Some (r, out) => Some (r, map Io (snd run) ++ out)
  | None => None
  end.
Proof.
  intro Hc; unfold main; cbv zeta.
  rewrite (run_benchmark_connected _ _ _ _ _ _ Hc); reflexivity.
Qed.

(** X10: when the server cannot be reached (the listing answers with a
    status other than 200 or the request raises a [RequestException]) the
    whole program makes the probe, prints the two messages "cannot
    connect" and "no results", writes no file and ends normally. *)
Theorem main_server_unreachable E R a tr :
  (exists r,
     requests_get E tr (base_url (init (host a) (port a)) ++ "/models")%string
       = ret r /\ status_code r <> 200) \/
  (exists e,
     requests_get E tr (base_url (init (host a) (port a)) ++ "/models")%string
       = raise e /\ is_RequestException e = true) ->
  main E R a tr =
    Some (ret PNone,
          map Io tr
          ++ [Io (EvGet
                    (base_url (init (host a) (port a)) ++ "/models")%string
                    (requests_get E tr
                       (base_url (init (host a) (port a)) ++ "/models")%string));
              Io (EvPrint msg_cannot_connect);
              Io (EvPrint msg_no_results)]).
Proof.
  intro Hf.
  pose proof (check_connection_fails E _ tr Hf) as Hc.
  pose proof (check_connection_trace E (init (host a) (port a)) tr) as Ht.
  destruct (check_connection E (init (host a) (port a)) tr) as [b tr1] eqn:Hcc.
  cbn [fst snd] in Hc, Ht; subst b tr1.
  unfold main; cbv zeta.
  rewrite (run_benchmark_not_connected _ _ _ _ _ _ Hcc).
  rewrite generate_report_empty by reflexivity.
  unfold models_url; rewrite !map_app, <- !app_assoc; reflexivity.
Qed.

Lemma main_server_unreachable_witness :
  ((exists r,
      requests_get Sample.unreachable []
        (base_url (init (host default_args) (port default_args))
         ++ "/models")%string = ret r /\ status_code r <> 200) \/
   (exists e,
      requests_get Sample.unreachable []
        (base_url (init (host default_args) (port default_args))
         ++ "/models")%string = raise e /\ is_RequestException e = true)) /\
  main Sample.unreachable Demo.disk default_args [] =
    Some (ret PNone,
          map Io []
          ++ [Io (EvGet
                    (base_url (init (host default_args) (port default_args))
                     ++ "/models")%string
                    (requests_get Sample.unreachable []
                       (base_url (init (host default_args)
                                    (port default_args))
                        ++ "/models")%string));
              Io (EvPrint msg_cannot_connect);
              Io (EvPrint msg_no_results)]).
Proof.
  assert (H : (exists r,
      requests_get Sample.unreachable []
        (base_url (init (host default_args) (port default_args))
         ++ "/models")%string = ret r /\ status_code r <> 200) \/
   (exists e,
      requests_get Sample.unreachable []
        (base_url (init (host default_args) (port default_args))
         ++ "/models")%string = raise e /\ is_RequestException e = true)).
  { right; exists (RequestException "ConnectionError");
      split; reflexivity. }
  split; [exact H|].
  exact (main_server_unreachable Sample.unreachable Demo.disk default_args
           [] H).
Defined.

(** X11: when the server is reached and every trial fails, the program
    still makes all its trials (the three built-in prompts, each
    [iterations] times, in order), then prints "no results" and writes no
    file. *)
Theorem main_all_trials_fail E R a tr tr1 :
  check_connection E (init (host a) (port a)) tr = (ret true, tr1) ->
  forallb (fun m => negb (succeeded m))
    (planned_trials E (init (host a) (port a)) tr1 test_prompts
       (iterations a)) = true ->
  exists tr',
    main E R a tr =
      Some (ret PNone, map Io tr' ++ [Io (EvPrint msg_no_results)]) /\
    posted tr' =
      posted tr
      ++ map (trial_request (init (host a) (port a)))
           (trial_plan test_prompts (Z.to_nat (iterations a))) /\
    List.length (trial_plan test_prompts (Z.to_nat (iterations a))) =
      (3 * Z.to_nat (iterations a))%nat.
Proof.
  intros Hc Hall.
  exists (snd (trial_run E (init (host a) (port a))
                 (tr1 ++ [EvPrint (msg_running test_prompts (iterations a))])
                 (trial_plan test_prompts (Z.to_nat (iterations a))))).
  split; [|split; [|apply trial_plan_length]].
  - rewrite (main_connected _ _ _ _ _ Hc); cbv zeta.
    rewrite generate_report_empty
      by (cbn [results]; apply filter_none; exact Hall).
    reflexivity.
  - destruct (trial_run_trace E (init (host a) (port a))
                (trial_plan test_prompts (Z.to_nat (iterations a)))
                (tr1 ++ [EvPrint (msg_running test_prompts (iterations a))]))
      as (added & -> & Hp).
    rewrite !posted_app, Hp, (check_connection_posted _ _ _ _ _ Hc).
    cbn [posted]; rewrite app_nil_r; reflexivity.
Qed.

Lemma main_all_trials_fail_witness :
  check_connection Demo.failing
    (init (host default_args) (port default_args)) [] =
    (ret true, Sample.probed) /\
  forallb (fun m => negb (succeeded m))
    (planned_trials Demo.failing
       (init (host default_args) (port default_args)) Sample.probed
       test_prompts (iterations default_args)) = true /\
  exists tr',
    main Demo.failing Demo.read_only default_args [] =
      Some (ret PNone, map Io tr' ++ [Io (EvPrint msg_no_results)]) /\
    posted tr' =
      posted []
      ++ map (trial_request (init (host default_args) (port default_args)))
           (trial_plan test_prompts (Z.to_nat (iterations default_args))) /\
    List.length (trial_plan test_prompts
                   (Z.to_nat (iterations default_args))) =
      (3 * Z.to_nat (iterations default_args))%nat.
Proof.
  split; [reflexivity|]. split; [vm_compute; reflexivity|].
  apply (main_all_trials_fail Demo.failing Demo.read_only default_args []
           Sample.probed); [reflexivity | vm_compute; reflexivity].
Defined.

(** X12: when the server is reached, at least one trial succeeds and the
    disk takes the file, the program writes "benchmark_results.csv" once,
    after its last trial, with exactly the Measurements of the successful
    trials in the order of the trials, then prints the summary of their
    latency, throughput and memory entries. *)
Theorem main_writes_successes E R a tr tr1 :
  check_connection E (init (host a) (port a)) tr = (ret true, tr1) ->
  filter succeeded
    (planned_trials E (init (host a) (port a)) tr1 test_prompts
       (iterations a)) <> [] ->
  to_csv R default_output_file
    (filter succeeded
       (planned_trials E (init (host a) (port a)) tr1 test_prompts
          (iterations a))) = None ->
  exists tr' latency tokens memory,
    main E R a tr =
      Some (ret PNone,
            map Io tr'
            ++ CsvWritten "benchmark_results.csv"
                 (filter succeeded
                    (planned_trials E (init (host a) (port a)) tr1
                       test_prompts (iterations a)))
               :: summary R latency tokens memory "benchmark_results.csv") /\
    Forall2 (fun m q => getitem_str m "latency" = ret (PFloat q))
      (filter succeeded
         (planned_trials E (init (host a) (port a)) tr1 test_prompts
            (iterations a))) latency /\
    Forall2 (fun m q => getitem_str m "tokens_per_second" = ret (PFloat q))
      (filter succeeded
         (planned_trials E (init (host a) (port a)) tr1 test_prompts
            (iterations a))) tokens /\
    Forall2 (fun m q => getitem_str m "memory_usage_mb" = ret (PFloat q))
      (filter succeeded
         (planned_trials E (init (host a) (port a)) tr1 test_prompts
            (iterations a))) memory.
Proof.
  intros Hc Hne Hcsv.
  destruct (generate_report_table R
              {| base_url := base_url (init (host a) (port a));
                 results := filter succeeded
                              (planned_trials E (init (host a) (port a)) tr1
                                 test_prompts (iterations a)) |}
              default_output_file Hne
              (trial_run_measurements E _ _ _) Hcsv)
    as (l & t & m & Hrep & Hl & Ht & Hm).
  exists (snd (trial_run E (init (host a) (port a))
                 (tr1 ++ [EvPrint (msg_running test_prompts (iterations a))])
                 (trial_plan test_prompts (Z.to_nat (iterations a))))),
         l, t, m.
  split; [|repeat split; assumption].
  rewrite (main_connected _ _ _ _ _ Hc); cbv zeta.
  rewrite Hrep; reflexivity.
Qed.

Lemma main_writes_successes_witness :
  check_connection Sample.flaky
    (init (host default_args) (port default_args)) [] =
    (ret true, Sample.probed) /\
  filter succeeded
    (planned_trials Sample.flaky
       (init (host default_args) (port default_args)) Sample.probed
       test_prompts (iterations default_args)) <> [] /\
  exists tr' latency tokens memory,
    main Sample.flaky Demo.disk default_args [] =
      Some (ret PNone,
            map Io tr'
            ++ CsvWritten "benchmark_results.csv"
                 (filter succeeded
                    (planned_trials Sample.flaky
                       (init (host default_args) (port default_args))
                       Sample.probed test_prompts (iterations default_args)))
               :: summary Demo.disk latency tokens memory
                    "benchmark_results.csv") /\
    List.length latency = 4%nat.
Proof.
  assert (Hne : filter succeeded
    (planned_trials Sample.flaky
       (init (host default_args) (port default_args)) Sample.probed
       test_prompts (iterations default_args)) <> []).
  { vm_compute; discriminate. }
  split; [reflexivity|]. split; [exact Hne|].
  destruct (main_writes_successes Sample.flaky Demo.disk default_args []
              Sample.probed eq_refl Hne eq_refl)
    as (tr' & l & t & m & Hmain & Hl & _ & _).
  exists tr', l, t, m; split; [exact Hmain|].
  apply Forall2_length in Hl; rewrite <- Hl; vm_compute; reflexivity.
Defined.

